(** * MCP weather server: protocol engine, tool dispatch and Azure AD gate

    A shallow embedding of [src/tools/weather.py], [src/server.py],
    [src/http_server.py] and [src/auth.py], and the properties of the
    specification stated against it.

    Python values that travel through the server (JSON bodies, token
    payloads, key sets, tool results) are values of [json]; a Python
    [dict] is an association list in insertion order.  Code that can
    raise returns [result A], the raised exception on the right.  Calls
    into third-party libraries (PyJWT, cryptography, httpx, the
    [random] module, [str()]) are parameters of the
    sections that use them. *)

From Stdlib Require Import ZArith Ascii String List Bool Lia.
From stdpp Require Import base option strings gmap.

Import ListNotations.
Local Open Scope string_scope.
Local Open Scope Z_scope.
Local Set Warnings "-register-all".

(* ===================================================================== *)
(** ** Python values *)
(* ===================================================================== *)

Module Py.

Inductive json : Type :=
| JNull
| JBool (b : bool)
| JNum (n : Z)
| JStr (s : string)
| JArr (l : list json)
| JObj (d : list (string * json)).

Abbreviation dict := (list (string * json)).

(** [bool(v)]: the truth value Python gives [v] in [if v] and [not v]. *)
Definition truthy (v : json) : bool :=
  match v with
  | JNull => false
  | JBool b => b
  | JNum n => negb (n =? 0)
  | JStr s => negb (String.eqb s "")
  | JArr l => match l with [] => false | _ => true end
  | JObj d => match d with [] => false | _ => true end
  end.

(** [d.get(k)] as an option, and [d.get(k, default)]. *)
Fixpoint lookup_key (k : string) (d : dict) : option json :=
  match d with
  | [] => None
  | (k', v) :: rest => if String.eqb k' k then Some v else lookup_key k rest
  end.

Definition dict_get (d : dict) (k : string) : json :=
  match lookup_key k d with Some v => v | None => JNull end.

Definition dict_get_default (d : dict) (k : string) (default : json) : json :=
  match lookup_key k d with Some v => v | None => default end.

(** [v == "s"] for a [str] literal: only a [str] is equal to a [str]. *)
Definition eq_str (v : json) (s : string) : bool :=
  match v with JStr s' => String.eqb s' s | _ => false end.

(** Python's [a == b] on JSON values: [bool] is a subclass of [int]
    ([True == 1]), sequences compare element-wise, dictionaries compare
    as mappings whatever the insertion order. *)
Fixpoint py_eq (a b : json) {struct a} : bool :=
  match a, b with
  | JNull, JNull => true
  | JBool x, JBool y => Bool.eqb x y
  | JBool x, JNum n => n =? (if x then 1 else 0)
  | JNum n, JBool x => n =? (if x then 1 else 0)
  | JNum n, JNum m => n =? m
  | JStr s, JStr t => String.eqb s t
  | JArr l, JArr m =>
      (fix eq_items (l m : list json) {struct l} : bool :=
         match l, m with
         | [], [] => true
         | x :: l', y :: m' => py_eq x y && eq_items l' m'
         | _, _ => false
         end) l m
  | JObj d, JObj e =>
      (length d =? length e)%nat &&
      (fix eq_entries (d : dict) {struct d} : bool :=
         match d with
         | [] => true
         | (k, v) :: d' =>
             match lookup_key k e with
             | Some w => py_eq v w && eq_entries d'
             | None => false
             end
         end) d
  | _, _ => false
  end.

(** Exceptions, by the classes the handlers of the program tell apart.
    [ExpiredSignatureError] is a subclass of [InvalidTokenError] in
    PyJWT; [InvalidTokenError] below stands for every other subclass. *)
Inductive exn : Type :=
| HTTPException (status_code : Z) (detail : string)
| ValueError (msg : string)
| AttributeError (msg : string)
| TypeError (msg : string)
| ImportError (msg : string)
| ExpiredSignatureError
| InvalidTokenError
| OtherError (msg : string).

Definition result (A : Type) : Type := A + exn.

Definition ret {A} (a : A) : result A := inl a.
Definition raise {A} (e : exn) : result A := inr e.
Definition bind {A B} (m : result A) (k : A -> result B) : result B :=
  match m with inl a => k a | inr e => inr e end.

(** A [str] is modelled by its UTF-8 bytes, and a lone surrogate, which
    a JSON document can carry as an escape, by the three bytes that
    generalised UTF-8 gives it: [ED], then a byte of [A0..BF], then a
    continuation byte. *)
Fixpoint has_surrogate (s : string) : bool :=
  match s with
  | EmptyString => false
  | String c rest =>
      ((nat_of_ascii c =? 237)%nat
       && match rest with
          | String d _ =>
              (160 <=? nat_of_ascii d)%nat && (nat_of_ascii d <=? 191)%nat
          | EmptyString => false
          end)
      || has_surrogate rest
  end.

(** [s.encode()]: UTF-8 refuses a lone surrogate with
    [UnicodeEncodeError], a subclass of [ValueError]. *)
Definition encode (s : string) : result string :=
  if has_surrogate s
  then raise (ValueError "'utf-8' codec can't encode: surrogates not allowed")
  else ret s.

(** What the Python runtime prints: [str(v)] as used by an f-string and
    [str(e)] of an exception. *)
Class Runtime : Type := {
  py_str : json -> string;
  exn_str : exn -> string
}.

(** [mcp.types.TextContent].  Every [text] of the program is
    [json.dumps(v, ...)] of some value [v]; the field records [v], the
    document that is serialised, and not its characters. *)
Record TextContent : Type := { type_ : string; text : json }.

End Py.

Import Py.

Declare Scope py_scope.
Delimit Scope py_scope with py.
Notation "x <- m ;; k" := (Py.bind m (fun x => k))
  (at level 100, m at next level, right associativity) : py_scope.

(* ===================================================================== *)
(** ** [src/tools/weather.py] *)
(* ===================================================================== *)

Module Weather.

(** The [random] module: a tape of raw draws read through a cursor.
    [randint a b] maps the next raw draw onto [a..b]; every value of the
    range is the image of some draw ([randint_onto]). *)
Definition Rand (A : Type) : Type := nat -> A * nat.

Definition rret {A} (a : A) : Rand A := fun i => (a, i).
Definition rbind {A B} (m : Rand A) (k : A -> Rand B) : Rand B :=
  fun i => let '(a, j) := m i in k a j.

Declare Scope rand_scope.
Delimit Scope rand_scope with rand.
Notation "x <~ m ;; k" := (rbind m (fun x => k))
  (at level 100, m at next level, right associativity) : rand_scope.

Definition name : string := "get_weather".

Definition weather_conditions : list string :=
  [ "ensoleillé"; "nuageux"; "pluvieux"; "orageux";
    "partiellement nuageux"; "brumeux"; "neigeux" ].

Section Execute.
Context `{Runtime}.
Variable tape : nat -> nat.

Definition randint (a b : Z) : Rand Z :=
  fun i => (a + Z.of_nat (tape i) mod (b - a + 1), S i).

Definition choice (xs : list string) : Rand string :=
  fun i => (nth (tape i mod length xs)%nat xs "", S i).

Local Open Scope rand_scope.

(** [WeatherTool.execute(city, unit)]; [timestamp] is
    [datetime.now().isoformat()]. *)
Definition execute (timestamp : string) (city unit : json) : Rand dict :=
  tu <~ (if eq_str unit "fahrenheit"
         then (t <~ randint 32 95 ;; rret (t, "°F"))
         else (t <~ randint 0 35 ;; rret (t, "°C"))) ;;
  let '(temp, temp_unit) := tu in
  condition <~ choice weather_conditions ;;
  humidity <~ randint 30 90 ;;
  wind_speed <~ randint 5 30 ;;
  pressure <~ randint 980 1030 ;;
  visibility <~ randint 5 15 ;;
  uv_index <~ randint 1 10 ;;
  d1 <~ randint (-5) 5 ;;
  d2 <~ randint 5 15 ;;
  c1 <~ choice weather_conditions ;;
  d3 <~ randint (-8) 8 ;;
  d4 <~ randint 3 12 ;;
  c2 <~ choice weather_conditions ;;
  let weather_data : dict :=
    [ ("city", city);
      ("temperature", JNum temp);
      ("unit", JStr temp_unit);
      ("condition", JStr condition);
      ("humidity", JNum humidity);
      ("wind_speed", JNum wind_speed);
      ("wind_unit", JStr "km/h");
      ("pressure", JNum pressure);
      ("visibility", JNum visibility);
      ("uv_index", JNum uv_index);
      ("timestamp", JStr timestamp);
      ("forecast", JArr
         [ JObj [ ("day", JStr "Demain");
                  ("high", JNum (temp + d1));
                  ("low", JNum (temp - d2));
                  ("condition", JStr c1) ];
           JObj [ ("day", JStr "Après-demain");
                  ("high", JNum (temp + d3));
                  ("low", JNum (temp - d4));
                  ("condition", JStr c2) ] ]) ] in
  rret [ ("success", JBool true);
         ("data", JObj weather_data);
         ("message", JStr ("Données météo récupérées pour " ++ py_str city)) ].

End Execute.

End Weather.

(* ===================================================================== *)
(** ** [src/server.py]: the stdio dispatch path *)
(* ===================================================================== *)

Module Stdio.

Import Weather.

Section Server.
Context `{Runtime}.
Variable tape : nat -> nat.

(** [try: body except Exception as e: handler(e)] around code that
    draws random numbers. *)
Definition try_except {A} (body : Rand (result A)) (handler : exn -> A)
  : Rand A :=
  fun i => let '(r, j) := body i in
           (match r with inl a => a | inr e => handler e end, j).

(** [MCPWeatherServer._setup_tools.handle_call_tool(name, arguments)]. *)
Definition handle_call_tool (timestamp : string) (name : string)
           (arguments : dict) : Rand (list TextContent) :=
  if String.eqb name "get_weather" then
    try_except
      (let city := dict_get_default arguments "city" (JStr "") in
       let unit := dict_get_default arguments "unit" (JStr "celsius") in
       if negb (truthy city) then
         rret (ret [ {| type_ := "text";
                        text := JObj [("error",
                                  JStr "Le paramètre 'city' est requis")] |} ])
       else
         rbind (execute tape timestamp city unit) (fun result =>
         rret (ret [ {| type_ := "text"; text := JObj result |} ])))
      (fun e =>
         [ {| type_ := "text";
              text := JObj [("error",
                        JStr ("Erreur lors de l'exécution: " ++ exn_str e))] |} ])
  else
    rret [ {| type_ := "text";
              text := JObj [("error", JStr ("Outil inconnu: " ++ name))] |} ].

End Server.

End Stdio.

(* ===================================================================== *)
(** ** [src/http_server.py]: the HTTP dispatch path *)
(* ===================================================================== *)

Module Http.

Import Weather.

(** [class MCPRequest(BaseModel)]: pydantic admits no other body. *)
Record MCPRequest : Type := {
  jsonrpc : string;
  id : Z;
  method : string;
  params : dict
}.

(** A value of a response dictionary: plain JSON, or the
    [{"content": [...]}] result of a tool call. *)
Inductive body_value : Type :=
| VJson (v : json)
| VContent (content : list TextContent).

Abbreviation body := (list (string * body_value)).

Fixpoint field (k : string) (b : body) : option body_value :=
  match b with
  | [] => None
  | (k', v) :: rest => if String.eqb k' k then Some v else field k rest
  end.

(** An HTTP response: status code and JSON body. *)
Record response : Type := { status : Z; content : body }.

(** *** Module initialisation: [from .auth import verify_azure_token] *)

(** [os.getenv(k)] is truthy when [k] is set to a non-empty string. *)
Definition getenv_truthy (env : gmap string string) (k : string) : bool :=
  match env !! k with
  | Some v => negb (String.eqb v "")
  | None => false
  end.

(** The names [src/auth.py] binds at top level, in order. *)
Definition auth_module_names : list string :=
  [ "os"; "jwt"; "httpx"; "logging"; "datetime"; "timezone";
    "Optional"; "Dict"; "Any"; "HTTPException"; "Depends"; "Request";
    "HTTPBearer"; "HTTPAuthorizationCredentials"; "hashlib"; "logger";
    "AZURE_AD_TENANT_ID"; "AZURE_AD_CLIENT_ID"; "AZURE_AD_CLIENT_SECRET";
    "AZURE_AD_AUTHORITY"; "AZURE_AD_JWKS_URL"; "AZURE_AD_TOKEN_URL";
    "security"; "GDPRLogger"; "AzureADAuth"; "azure_auth";
    "get_current_user"; "require_role"; "GDPRCompliance";
    "gdpr_compliance" ].

(** [from .auth import name] under the environment [env0] of the
    process at import time: running [auth.py] raises at
    [azure_auth = AzureADAuth()] unless tenant and client are set, and
    the import raises [ImportError] when the module does not bind
    [name]. *)
Definition import_from_auth (env0 : gmap string string) (name : string)
  : result unit :=
  if negb (getenv_truthy env0 "AZURE_AD_TENANT_ID"
           && getenv_truthy env0 "AZURE_AD_CLIENT_ID") then
    raise (ValueError
      "Configuration Azure AD incomplète. Vérifiez les variables d'environnement.")
  else if existsb (String.eqb name) auth_module_names then ret tt
  else raise (ImportError name).

(** [try: from .auth import verify_azure_token; HAS_AZURE_AUTH = True
     except Exception: HAS_AZURE_AUTH = False]. *)
Definition HAS_AZURE_AUTH (env0 : gmap string string) : bool :=
  match import_from_auth env0 "verify_azure_token" with
  | inl _ => true
  | inr _ => false
  end.

(** The fallback bound in the [except] branch:
    [async def verify_azure_token(token): return None]. *)
Definition verify_azure_token (token : string) : result json := ret JNull.

(** [s.split(' ')]. *)
Fixpoint split_space (s : string) : list string :=
  match s with
  | EmptyString => [""]
  | String c rest =>
      if Ascii.eqb c " "%char then "" :: split_space rest
      else match split_space rest with
           | [] => [String c ""]
           | w :: ws => String c w :: ws
           end
  end.

(** [all([os.getenv('AZURE_AD_TENANT_ID'), os.getenv('AZURE_AD_CLIENT_ID'),
          os.getenv('AZURE_AD_CLIENT_SECRET')])]. *)
Definition azure_configured (env : gmap string string) : bool :=
  getenv_truthy env "AZURE_AD_TENANT_ID"
  && getenv_truthy env "AZURE_AD_CLIENT_ID"
  && getenv_truthy env "AZURE_AD_CLIENT_SECRET".

(** The body of [verify_auth] for a given value of the module flag and
    of the callable bound to [verify_azure_token]. *)
Definition verify_auth_with (has_azure_auth : bool)
           (verify_token : string -> result json)
           (env : gmap string string) (headers : gmap string string)
  : result json :=
  if negb has_azure_auth || negb (azure_configured env) then
    ret (JBool true)
  else
    match headers !! "Authorization" with
    | None => raise (HTTPException 401 "Token d'authentification requis")
    | Some auth_header =>
        if String.eqb auth_header "" || negb (String.prefix "Bearer " auth_header)
        then raise (HTTPException 401 "Token d'authentification requis")
        else
          match nth_error (split_space auth_header) 1 with
          | None => raise (OtherError "IndexError")
          | Some token =>
              match verify_token token with
              | inl user_info => ret user_info
              | inr _ => raise (HTTPException 401 "Token invalide")
              end
          end
    end.

(** [verify_auth(request)] as the module is initialised under [env0]. *)
Definition verify_auth (env0 env headers : gmap string string) : result json :=
  verify_auth_with (HAS_AZURE_AUTH env0) verify_azure_token env headers.

Section Handlers.
Context `{Runtime}.
Variable tape : nat -> nat.

Definition handle_initialize (request : MCPRequest) : body :=
  [ ("jsonrpc", VJson (JStr "2.0"));
    ("id", VJson (JNum (id request)));
    ("result", VJson (JObj
       [ ("protocolVersion", JStr "2024-11-05");
         ("capabilities", JObj [("tools", JObj [])]);
         ("serverInfo", JObj [ ("name", JStr "mcp-weather-server");
                               ("version", JStr "1.0.0") ]) ])) ].

Definition tools : list json :=
  [ JObj
      [ ("name", JStr "get_weather");
        ("description", JStr
           "Récupère les informations météorologiques pour une ville donnée");
        ("inputSchema", JObj
           [ ("type", JStr "object");
             ("properties", JObj
                [ ("city", JObj [ ("type", JStr "string");
                                  ("description", JStr "Nom de la ville") ]);
                  ("unit", JObj [ ("type", JStr "string");
                                  ("enum", JArr [JStr "celsius"; JStr "fahrenheit"]);
                                  ("default", JStr "celsius");
                                  ("description", JStr "Unité de température") ]) ]);
             ("required", JArr [JStr "city"]) ]) ] ].

Definition handle_list_tools (request : MCPRequest) : body :=
  [ ("jsonrpc", VJson (JStr "2.0"));
    ("id", VJson (JNum (id request)));
    ("result", VJson (JObj [("tools", JArr tools)])) ].

(** [arguments.get(k, default)]: only a [dict] has a [get]. *)
Definition arguments_get (arguments : json) (k : string) (default : json)
  : result json :=
  match arguments with
  | JObj d => ret (dict_get_default d k default)
  | _ => raise (AttributeError "get")
  end.

(** The [try] block of [handle_tool_call]; [server] is the outcome of
    [await get_mcp_server()]. *)
Definition tool_call_body (server : result unit) (timestamp : string)
           (request : MCPRequest) : Rand (result body) :=
  match server with
  | inr e => rret (raise e)
  | inl _ =>
      let tool_name := dict_get (params request) "name" in
      let arguments := dict_get_default (params request) "arguments" (JObj []) in
      if negb (truthy tool_name) then
        rret (raise (ValueError "Nom de l'outil requis"))
      else if eq_str tool_name "get_weather" then
        match arguments_get arguments "city" JNull with
        | inr e => rret (raise e)
        | inl city =>
            match arguments_get arguments "unit" (JStr "celsius") with
            | inr e => rret (raise e)
            | inl unit =>
                if negb (truthy city) then
                  rret (raise (ValueError "Le paramètre 'city' est requis"))
                else
                  rbind (execute tape timestamp city unit) (fun result =>
                  rret (ret
                    [ ("jsonrpc", VJson (JStr "2.0"));
                      ("id", VJson (JNum (id request)));
                      ("result", VContent
                         [ {| type_ := "text"; text := JObj result |} ]) ]))
            end
        end
      else
        rret (raise (ValueError ("Outil inconnu: " ++ py_str tool_name)))
  end.

Definition handle_tool_call (server : result unit) (timestamp : string)
           (request : MCPRequest) : Rand body :=
  fun i =>
    let '(r, j) := tool_call_body server timestamp request i in
    (match r with
     | inl b => b
     | inr e =>
         [ ("jsonrpc", VJson (JStr "2.0"));
           ("id", VJson (JNum (id request)));
           ("error", VJson (JObj
              [ ("code", JNum (-32603));
                ("message", JStr "Erreur lors de l'exécution de l'outil");
                ("data", JStr (exn_str e)) ])) ]
     end, j).

(** The [try] block of [handle_mcp_request]. *)
Definition mcp_request_body (server : result unit) (timestamp : string)
           (request : MCPRequest) : Rand (result body) :=
  if String.eqb (method request) "tools/call" then
    rbind (handle_tool_call server timestamp request) (fun b => rret (ret b))
  else if String.eqb (method request) "tools/list" then
    rret (ret (handle_list_tools request))
  else if String.eqb (method request) "initialize" then
    rret (ret (handle_initialize request))
  else
    rret (raise (HTTPException 400
                   ("Méthode non supportée: " ++ method request))).

(** [handle_mcp_request(request)]: a returned [dict] is sent with
    status 200, the [except] branch answers with [JSONResponse(500)]. *)
Definition handle_mcp_request (server : result unit) (timestamp : string)
           (request : MCPRequest) : Rand response :=
  fun i =>
    let '(r, j) := mcp_request_body server timestamp request i in
    (match r with
     | inl b => {| status := 200; content := b |}
     | inr e =>
         {| status := 500;
            content :=
              [ ("jsonrpc", VJson (JStr "2.0"));
                ("id", VJson (JNum (id request)));
                ("error", VJson (JObj
                   [ ("code", JNum (-32603));
                     ("message", JStr "Erreur interne du serveur");
                     ("data", JStr (exn_str e)) ])) ] |}
     end, j).

(** [POST /mcp]: FastAPI resolves [Depends(verify_auth)] first and
    turns an [HTTPException] into a response of that status; otherwise
    the handler runs. *)
Definition post_mcp (env0 env headers : gmap string string)
           (server : result unit) (timestamp : string)
           (request : MCPRequest) : Rand response :=
  match verify_auth env0 env headers with
  | inr (HTTPException code detail) =>
      rret {| status := code; content := [("detail", VJson (JStr detail))] |}
  | inr _ =>
      rret {| status := 500; content := [] |}
  | inl _ => handle_mcp_request server timestamp request
  end.

End Handlers.

End Http.

(* ===================================================================== *)
(** ** [src/auth.py]: the Azure AD gate *)
(* ===================================================================== *)

Module Auth.

(** Instants are integers, in microseconds (the resolution of
    [datetime]).  [(now - t).total_seconds() < 3600] is then
    [now - t < window], and an integer [exp] in seconds is below the
    float [now.timestamp()] exactly when [exp * 1000000 < now]. *)
Definition second : Z := 1000000.
Definition window : Z := 3600 * second.

(** [class AzureADAuth]: the two fields set by [__init__]. *)
Record AzureADAuth : Type := {
  jwks_cache : json;
  jwks_cache_time : option Z
}.

Definition new_AzureADAuth : AzureADAuth :=
  {| jwks_cache := JObj []; jwks_cache_time := None |}.

(** The object together with the number of outbound requests sent to
    the key-discovery endpoint so far. *)
Record state : Type := { self : AzureADAuth; fetches : nat }.

(** Code that may raise and may update the object; the update survives
    the exception. *)
Definition M (A : Type) : Type := state -> result A * state.

Definition mret {A} (a : A) : M A := fun st => (inl a, st).
Definition mraise {A} (e : exn) : M A := fun st => (inr e, st).
Definition mbind {A B} (m : M A) (k : A -> M B) : M B :=
  fun st => match m st with
            | (inl a, st') => k a st'
            | (inr e, st') => (inr e, st')
            end.
Definition lift {A} (r : result A) : M A := fun st => (r, st).

Declare Scope auth_scope.
Delimit Scope auth_scope with auth.
Notation "x <<- m ;; k" := (mbind m (fun x => k))
  (at level 100, m at next level, right associativity) : auth_scope.

(** [request.client.host if request.client else "unknown"] and
    [request.url.path]. *)
Record Request : Type := { client_host : option string; url_path : string }.

(** The condition of the [if] of [get_jwks]. *)
Definition cache_fresh (a : AzureADAuth) (now : Z) : bool :=
  match jwks_cache_time a with
  | None => false
  | Some t => (now - t <? window) && truthy (jwks_cache a)
  end.

(** [x in v] for a [str] [x]. *)
Definition str_in (x : string) (v : json) : result bool :=
  match v with
  | JArr l => ret (existsb (fun y => eq_str y x) l)
  | JObj d => ret (existsb (fun kv => String.eqb (fst kv) x) d)
  | JStr s => ret (match String.index 0 x s with Some _ => true | None => false end)
  | _ => raise (TypeError "argument is not iterable")
  end.

(** [require_role(required_role)] returns [role_checker]. *)
Definition require_role (required_role : string) (user : dict) : result dict :=
  let user_roles := dict_get_default user "roles" (JArr []) in
  (has_role <- str_in required_role user_roles ;;
   is_admin <- (if has_role then ret true else str_in "admin" user_roles) ;;
   if negb has_role && negb is_admin then
     raise (HTTPException 403 ("Rôle requis: " ++ required_role))
   else ret user)%py.

(** What a call of [get_jwks] holds while it is suspended. *)
Inductive jwks_pending : Type :=
| Served (keys : json)
| Sent (n : nat).

Section Validation.
(** The [n]-th request to the key-discovery endpoint: [client.get],
    [raise_for_status] and [response.json()]. *)
Variable http_get_jwks : nat -> result json.
(** [jwt.get_unverified_header(token)]. *)
Variable jwt_get_unverified_header : string -> result dict.
(** The construction of the PEM key from a matching key record
    (lines 105 to 121 of [auth.py]). *)
Variable public_key_pem : dict -> result string.
(** [jwt.decode(token, key, algorithms=["RS256"], audience=...,
    issuer=...)]. *)
Variable jwt_decode : string -> string -> result dict.

(** [get_jwks] is a coroutine on the shared [azure_auth], with no lock:
    it suspends at [await client.get(...)], after the cache test and
    before the store, and other validations may run in between.

    [get_jwks_send] is the part before the suspension: the answer
    served from the cache, or the request just sent. *)
Definition get_jwks_send (now : Z) (st : state) : jwks_pending * state :=
  if cache_fresh (self st) now then (Served (jwks_cache (self st)), st)
  else (Sent (fetches st), {| self := self st; fetches := S (fetches st) |}).

(** [get_jwks_receive] is the part after it: the store of the answer,
    with the time read at the start of the call, or the 503. *)
Definition get_jwks_receive (now : Z) (p : jwks_pending) (st : state)
  : result json * state :=
  match p with
  | Served keys => (inl keys, st)
  | Sent n =>
      match http_get_jwks n with
      | inl keys =>
          (inl keys,
           {| self := {| jwks_cache := keys; jwks_cache_time := Some now |};
              fetches := fetches st |})
      | inr _ =>
          (inr (HTTPException 503 "Service d'authentification indisponible"),
           st)
      end
  end.

(** A call of [get_jwks] during which no other validation runs. *)
Definition get_jwks (now : Z) : M json :=
  fun st =>
    let '(p, st1) := get_jwks_send now st in
    get_jwks_receive now p st1.

(** Two calls that overlap: both run up to their [await], then both
    receive their answer, in the order they were sent. *)
Definition get_jwks_overlapped (now1 now2 : Z) (st : state)
  : (result json * result json) * state :=
  let '(p1, st1) := get_jwks_send now1 st in
  let '(p2, st2) := get_jwks_send now2 st1 in
  let '(r1, st3) := get_jwks_receive now1 p1 st2 in
  let '(r2, st4) := get_jwks_receive now2 p2 st3 in
  ((r1, r2), st4).

(** The [for key in ...] loop of [get_public_key]. *)
Fixpoint find_key (kid : json) (keys : list json) : result (option dict) :=
  match keys with
  | [] => ret None
  | JObj key :: rest =>
      if py_eq (dict_get key "kid") kid then ret (Some key)
      else find_key kid rest
  | _ :: _ => raise (AttributeError "get")
  end.

Definition get_public_key (token_header : dict) (jwks : json) : result string :=
  let kid := dict_get token_header "kid" in
  if negb (truthy kid) then
    raise (HTTPException 401 "Token invalide: kid manquant")
  else
    match jwks with
    | JObj d =>
        (found <-
           match dict_get_default d "keys" (JArr []) with
           | JArr keys => find_key kid keys
           | JObj [] | JStr "" => ret None
           | JObj _ | JStr _ => raise (AttributeError "get")
           | _ => raise (TypeError "object is not iterable")
           end ;;
         match found with
         | Some key => public_key_pem key
         | None => raise (HTTPException 401 "Clé publique non trouvée")
         end)%py
    | _ => raise (AttributeError "get")
    end.

(** [payload.get("exp", 0) < now]. *)
Definition exp_before (payload : dict) (now : Z) : result bool :=
  match dict_get_default payload "exp" (JNum 0) with
  | JNum n => ret (n * second <? now)
  | JBool b => ret ((if b then 1 else 0) * second <? now)
  | _ => raise (TypeError "'<' not supported")
  end.

(** [GDPRLogger.log_access(user_id, ...)]: the log line itself is not
    modelled here (see [Gdpr.log_access]), its failures are:
    [user_id.encode()] exists on a [str] only and refuses a lone
    surrogate, and so does [ip_address.encode()] for a non-empty
    address. *)
Definition log_access (user_id : json) (endpoint : string) (success : bool)
           (ip_address : string) : result unit :=
  match user_id with
  | JStr s =>
      (_ <- encode s ;;
       if String.eqb ip_address "" then ret tt
       else (_ <- encode ip_address ;; ret tt))%py
  | _ => raise (AttributeError "encode")
  end.

Local Open Scope auth_scope.

(** The [try] block of [validate_token]; [now] is the clock read by
    [get_jwks], [now_ts] the one read for the expiry test. *)
Definition validate_token_body (token : string) (request : Request)
           (now now_ts : Z) : M dict :=
  unverified_header <<- lift (jwt_get_unverified_header token) ;;
  jwks <<- get_jwks now ;;
  public_key <<- lift (get_public_key unverified_header jwks) ;;
  payload <<- lift (jwt_decode token public_key) ;;
  expired <<- lift (exp_before payload now_ts) ;;
  if (expired : bool) then mraise (HTTPException 401 "Token expiré")
  else
    let user_id := dict_get_default payload "sub" (JStr "unknown") in
    let client_ip := match client_host request with
                     | Some h => h | None => "unknown" end in
    _ <<- lift (log_access user_id (url_path request) true client_ip) ;;
    mret payload.

(** The three [except] clauses of [validate_token], in order. *)
Definition validate_token_handler (e : exn) : exn :=
  match e with
  | ExpiredSignatureError => HTTPException 401 "Token expiré"
  | InvalidTokenError => HTTPException 401 "Token invalide"
  | _ => HTTPException 401 "Erreur d'authentification"
  end.

Definition validate_token (token : string) (request : Request)
           (now now_ts : Z) : M dict :=
  fun st =>
    match validate_token_body token request now now_ts st with
    | (inl payload, st') => (inl payload, st')
    | (inr e, st') => (inr (validate_token_handler e), st')
    end.

(** [get_current_user(request, credentials)]. *)
Definition get_current_user (request : Request) (credentials : option string)
           (now now_ts : Z) : M dict :=
  match credentials with
  | None => mraise (HTTPException 401 "Token d'authentification requis")
  | Some token => validate_token token request now now_ts
  end.

End Validation.

End Auth.

(* ===================================================================== *)
(** ** Concrete inputs used by the closed examples *)
(* ===================================================================== *)

Module Sample.

Import Http Auth.

(** A runtime that prints a [str] as itself and an exception by its
    message. *)
Definition runtime : Runtime :=
  {| py_str := fun v => match v with JStr s => s | _ => "" end;
     exn_str := fun e =>
       match e with
       | HTTPException _ m | ValueError m | AttributeError m
       | TypeError m | ImportError m | OtherError m => m
       | ExpiredSignatureError => "Signature has expired"
       | InvalidTokenError => "Invalid token"
       end |}.

Definition tape : nat -> nat := fun i => (7 * i + 3)%nat.

Definition timestamp : string := "2025-01-01T12:00:00".

(** An environment with the three [AZURE_AD_*] variables set. *)
Definition env_configured : gmap string string :=
  <["AZURE_AD_TENANT_ID" := "tenant"]>
    (<["AZURE_AD_CLIENT_ID" := "client"]>
       (<["AZURE_AD_CLIENT_SECRET" := "secret"]> ∅)).

Definition no_headers : gmap string string := ∅.

Definition initialize_request : MCPRequest :=
  {| jsonrpc := "2.0"; id := 1; method := "initialize"; params := [] |}.

Definition ping_request : MCPRequest :=
  {| jsonrpc := "2.0"; id := 7; method := "ping"; params := [] |}.

Definition call_request (name : string) (arguments : dict) : MCPRequest :=
  {| jsonrpc := "2.0"; id := 2; method := "tools/call";
     params := [("name", JStr name); ("arguments", JObj arguments)] |}.

(** Key sets and tokens for the gate. *)
Definition keyset (kid : string) : json :=
  JObj [("keys", JArr [JObj [("kid", JStr kid); ("n", JStr "AQAB"); ("e", JStr "AQAB")]])].

Definition header_of (token : string) : result dict :=
  ret [("alg", JStr "RS256"); ("kid", JStr "new")].

Definition pem_of (key : dict) : result string := ret "PEM".

Definition request : Request :=
  {| client_host := Some "10.0.0.1"; url_path := "/mcp" |}.

(** A cache filled one second before [1 * second] with the key ["old"]. *)
Definition cached_old : state :=
  {| self := {| jwks_cache := keyset "old"; jwks_cache_time := Some 0 |};
     fetches := 0 |}.

Definition empty_state : state := {| self := new_AzureADAuth; fetches := 0 |}.

Definition payload_exp (exp : Z) : dict :=
  [("sub", JStr "user-1"); ("exp", JNum exp); ("roles", JArr [JStr "reader"])].

(** A discovery endpoint that serves the key ["new"], one that is down,
    and the answer of [jwt.decode] for a token it accepts: the signature
    verifies and [exp] is still ahead of the clock of the library. *)
Definition fetch_new : nat -> result json := fun _ => ret (keyset "new").

Definition fetch_down : nat -> result json :=
  fun _ => raise (OtherError "ConnectError").

Definition decode_exp (exp : Z) : string -> string -> result dict :=
  fun _ _ => ret (payload_exp exp).

Definition cached_new : state :=
  {| self := {| jwks_cache := keyset "new"; jwks_cache_time := Some 0 |};
     fetches := 1 |}.

(** A stand-in for [jwt.decode] that follows PyJWT: the signature is
    verified first ([InvalidSignatureError], an [InvalidTokenError]),
    then [exp], when present, is compared with the clock of the library
    ([ExpiredSignatureError] when [exp <= clock]). *)
Definition pyjwt_decode (clock : Z) (signed : string -> bool)
           (claims_of : string -> dict) : string -> string -> result dict :=
  fun token key =>
    if negb (signed token) then raise InvalidTokenError
    else
      match lookup_key "exp" (claims_of token) with
      | Some (JNum exp) =>
          if exp * second <=? clock then raise ExpiredSignatureError
          else ret (claims_of token)
      | Some _ => raise InvalidTokenError
      | None => ret (claims_of token)
      end.

(** Sample tokens: all expire at second 100; the signature of
    ["forged"] does not verify. *)
Definition signed (token : string) : bool := negb (String.eqb token "forged").

Definition claims_of (token : string) : dict := payload_exp 100.

End Sample.

(* ===================================================================== *)
(** ** Vocabulary of the statements *)
(* ===================================================================== *)

Module Spec.

Import Http.

(** The [code] of the [error] member of a response body, if any. *)
Definition error_code (b : body) : option json :=
  match field "error" b with
  | Some (VJson (JObj e)) => lookup_key "code" e
  | _ => None
  end.

(** A JSON-RPC response for request [rid]: the [id] is echoed and
    exactly one of [result] and [error] is a member. *)
Definition rpc_envelope (rid : Z) (b : body) : Prop :=
  field "id" b = Some (VJson (JNum rid)) /\
  ((field "result" b <> None /\ field "error" b = None) \/
   (field "result" b = None /\ field "error" b <> None)).

(** Failure with an [HTTPException] of status [code]. *)
Definition rejected {A} (code : Z) (r : result A) : Prop :=
  exists detail, r = inr (HTTPException code detail).

(** The two shapes a tool call can take on its way out: the document of
    a text item carries the member [k] with value [v]. *)
Definition carries (k : string) (v : json) (t : TextContent) : Prop :=
  exists d, text t = JObj d /\ lookup_key k d = Some v.

(** The envelope [handle_tool_call] builds in its [except] branch. *)
Definition tool_error `{Runtime} (rid : Z) (e : exn) : body :=
  [ ("jsonrpc", VJson (JStr "2.0"));
    ("id", VJson (JNum rid));
    ("error", VJson (JObj
       [ ("code", JNum (-32603));
         ("message", JStr "Erreur lors de l'exécution de l'outil");
         ("data", JStr (exn_str e)) ])) ].

(** The text item both branches of the stdio path use for a failure. *)
Definition error_item (message : string) : TextContent :=
  {| type_ := "text"; text := JObj [("error", JStr message)] |}.

End Spec.

(* ===================================================================== *)
(** ** The tool descriptor: [WeatherTool.__init__] and [src/server.py] *)
(* ===================================================================== *)

Module Registry.

(** [self.description] and [self.parameters] of [WeatherTool]. *)
Definition description : string :=
  "Récupère les conditions météorologiques pour une ville donnée".

Definition parameters : json :=
  JObj
    [ ("type", JStr "object");
      ("properties", JObj
         [ ("city", JObj
              [ ("type", JStr "string");
                ("description",
                 JStr "Nom de la ville pour laquelle récupérer la météo") ]);
           ("unit", JObj
              [ ("type", JStr "string");
                ("enum", JArr [JStr "celsius"; JStr "fahrenheit"]);
                ("default", JStr "celsius");
                ("description", JStr "Unité de température") ]) ]);
      ("required", JArr [JStr "city"]) ].

(** [mcp.types.Tool]. *)
Record Tool : Type := {
  tool_name : string;
  tool_description : string;
  inputSchema : json
}.

(** [weather_tool_def] of [_setup_tools]. *)
Definition weather_tool_def : Tool :=
  {| tool_name := Weather.name;
     tool_description := description;
     inputSchema := parameters |}.

(** [MCPWeatherServer._setup_tools.handle_list_tools()]. *)
Definition handle_list_tools : list Tool := [weather_tool_def].

End Registry.

(* ===================================================================== *)
(** ** [src/http_server.py]: the other endpoints and the server singleton *)
(* ===================================================================== *)

Module Endpoints.

Import Http.

(** [GET /health] and [GET /]. *)
Definition health_check : dict :=
  [ ("status", JStr "healthy"); ("service", JStr "mcp-weather-server") ].

Definition root : dict :=
  [ ("service", JStr "MCP Weather Server");
    ("version", JStr "1.0.0");
    ("endpoints", JObj [ ("health", JStr "/health");
                         ("mcp", JStr "/mcp");
                         ("tools", JStr "/tools") ]) ].

(** The global [mcp_server] and the number of calls made to
    [create_mcp_server] so far; the server object itself is opaque. *)
Record server_state : Type := { mcp_server : option unit; created : nat }.

Section Singleton.
(** The [n]-th call of [create_mcp_server()]. *)
Variable create_mcp_server : nat -> result unit.

(** [get_mcp_server()]: the global is assigned only when the factory
    returns. *)
Definition get_mcp_server (st : server_state) : result unit * server_state :=
  match mcp_server st with
  | Some server => (inl server, st)
  | None =>
      match create_mcp_server (created st) with
      | inl server =>
          (inl server,
           {| mcp_server := Some server; created := S (created st) |})
      | inr e =>
          (inr e, {| mcp_server := None; created := S (created st) |})
      end
  end.

(** [k] calls in a row; the outcomes, oldest first, and the last state. *)
Fixpoint get_mcp_server_times (k : nat) (st : server_state)
  : list (result unit) * server_state :=
  match k with
  | O => ([], st)
  | S k' =>
      let '(r, st1) := get_mcp_server st in
      let '(rs, st2) := get_mcp_server_times k' st1 in
      (r :: rs, st2)
  end.

End Singleton.

Section ListTools.
Context `{Runtime}.

(** [GET /tools] once [verify_auth] has passed; [server] is the outcome
    of [await get_mcp_server()]. *)
Definition list_tools (server : result unit) : result dict :=
  match server with
  | inr e => raise (HTTPException 500 (exn_str e))
  | inl _ =>
      ret [ ("tools", JArr
               [ JObj
                   [ ("name", JStr "get_weather");
                     ("description", JStr
                        "Récupère les informations météorologiques pour une ville donnée");
                     ("parameters", JObj
                        [ ("type", JStr "object");
                          ("properties", JObj
                             [ ("city", JObj
                                  [ ("type", JStr "string");
                                    ("description", JStr "Nom de la ville") ]);
                               ("unit", JObj
                                  [ ("type", JStr "string");
                                    ("enum", JArr [JStr "celsius"; JStr "fahrenheit"]);
                                    ("default", JStr "celsius");
                                    ("description", JStr "Unité de température") ]) ]);
                          ("required", JArr [JStr "city"]) ]) ] ]) ]
  end.

End ListTools.

End Endpoints.

(* ===================================================================== *)
(** ** [src/http_server.py]: the body of [POST /mcp] before the handler *)
(* ===================================================================== *)

Module Wire.

Import Http Weather.

Section Body.
Context `{Runtime}.
Variable tape : nat -> nat.
(** What pydantic makes of a value that is not of the declared type (a
    numeric string for an [int], a number for a [str], ...) differs
    between its versions; [None] is refused by all of them. *)
Variable lax_int : json -> option Z.
Variable lax_str : json -> option string.
Variable lax_dict : json -> option dict.
(** The [detail] FastAPI renders for a body that does not validate. *)
Variable validation_detail : json -> json.

Definition validate_int (v : json) : option Z :=
  match v with
  | JNum n => Some n
  | JNull => None
  | _ => lax_int v
  end.

Definition validate_str (v : json) : option string :=
  match v with
  | JStr s => Some s
  | JNull => None
  | _ => lax_str v
  end.

Definition validate_dict (v : json) : option dict :=
  match v with
  | JObj d => Some d
  | JNull => None
  | _ => lax_dict v
  end.

(** The validation of the body against [class MCPRequest]: [id: int]
    and [method: str] are required, [jsonrpc] and [params] have
    defaults. *)
Definition parse_request (body : json) : option MCPRequest :=
  match body with
  | JObj d =>
      match lookup_key "id" d, lookup_key "method" d with
      | Some i, Some m =>
          match validate_int i, validate_str m,
                match lookup_key "jsonrpc" d with
                | Some j => validate_str j
                | None => Some "2.0"
                end,
                match lookup_key "params" d with
                | Some p => validate_dict p
                | None => Some []
                end
          with
          | Some i', Some m', Some j', Some p' =>
              Some {| jsonrpc := j'; id := i'; method := m'; params := p' |}
          | _, _, _, _ => None
          end
      | _, _ => None
      end
  | _ => None
  end.

(** [POST /mcp] on a JSON body: the dependency [verify_auth], then the
    validation of the body, answered by 422 and [{"detail": ...}] when
    it fails, then the handler. *)
Definition post_mcp_body (env0 env headers : gmap string string)
           (server : result unit) (timestamp : string) (body : json)
  : Rand response :=
  match verify_auth env0 env headers with
  | inr (HTTPException code detail) =>
      rret {| status := code; content := [("detail", VJson (JStr detail))] |}
  | inr _ => rret {| status := 500; content := [] |}
  | inl _ =>
      match parse_request body with
      | None =>
          rret {| status := 422;
                  content := [("detail", VJson (validation_detail body))] |}
      | Some request => handle_mcp_request tape server timestamp request
      end
  end.

End Body.

End Wire.

(* ===================================================================== *)
(** ** [src/auth.py]: the anonymising logger and the GDPR helpers *)
(* ===================================================================== *)

Module Gdpr.

Section Logger.
(** [hashlib.sha256(b).hexdigest()] of the bytes [b]. *)
Variable sha256_hexdigest : string -> string.

(** [GDPRLogger.anonymize_user_id(user_id)]: only a [str] has
    [encode], which refuses a lone surrogate; [[:8]] keeps the first
    eight characters. *)
Definition anonymize_user_id (user_id : json) : result string :=
  match user_id with
  | JStr s =>
      (bytes <- encode s ;;
       ret (String.substring 0 8 (sha256_hexdigest bytes)))%py
  | _ => raise (AttributeError "encode")
  end.

(** [str(b)] of a [bool] inside an f-string. *)
Definition bool_str (b : bool) : string := if b then "True" else "False".

(** [GDPRLogger.log_access(user_id, endpoint, success, ip_address)]:
    the line handed to [logger.info]. *)
Definition log_access (user_id : json) (endpoint : string) (success : bool)
           (ip_address : option string) : result string :=
  (anonymized_user <- anonymize_user_id user_id ;;
   anonymized_ip <-
     match ip_address with
     | Some ip =>
         if String.eqb ip "" then ret "unknown"
         else (bytes <- encode ip ;;
               ret (String.substring 0 8 (sha256_hexdigest bytes)))
     | None => ret "unknown"
     end ;;
   ret ("ACCESS: user=" ++ anonymized_user ++ ", endpoint=" ++ endpoint
        ++ ", success=" ++ bool_str success ++ ", ip_hash=" ++ anonymized_ip))%py.

(** [GDPRLogger.log_data_processing(user_id, data_type, operation)]. *)
Definition log_data_processing (user_id : json) (data_type operation : string)
  : result string :=
  (anonymized_user <- anonymize_user_id user_id ;;
   ret ("DATA_PROCESSING: user=" ++ anonymized_user ++ ", type=" ++ data_type
        ++ ", operation=" ++ operation))%py.

(** [GDPRCompliance.delete_user_data(user_id)]: the returned flag and
    the lines logged at level INFO. *)
Definition delete_user_data (user_id : json) : bool * list string :=
  match log_data_processing user_id "all_user_data" "deletion" with
  | inr _ => (false, [])
  | inl line1 =>
      match anonymize_user_id user_id with
      | inr _ => (false, [line1])
      | inl anonymized =>
          (true,
           [ line1;
             "Données utilisateur supprimées conformément au RGPD: " ++ anonymized ])
      end
  end.

End Logger.

End Gdpr.

(* ===================================================================== *)
(** ** Further vocabulary *)
(* ===================================================================== *)

Module View.

(** [result["data"][k]] of a tool result. *)
Definition data_field (k : string) (r : dict) : option json :=
  match lookup_key "data" r with
  | Some (JObj data) => lookup_key k data
  | _ => None
  end.

(** [result["data"]["forecast"][n][k]]. *)
Definition forecast_field (n : nat) (k : string) (r : dict) : option json :=
  match data_field "forecast" r with
  | Some (JArr days) =>
      match nth_error days n with
      | Some (JObj day) => lookup_key k day
      | _ => None
      end
  | _ => None
  end.

(** The raw draw [k] mapped onto [a..b], as [randint] does. *)
Definition draw (tape : nat -> nat) (a b : Z) (k : nat) : Z :=
  a + Z.of_nat (tape k) mod (b - a + 1).

(** Whether a string holds a space. *)
Fixpoint has_space (s : string) : bool :=
  match s with
  | EmptyString => false
  | String c rest => Ascii.eqb c " "%char || has_space rest
  end.

(** The pairs (name, schema) of a list of tool descriptions, the schema
    being the member [schema_key]. *)
Definition name_and_schema (schema_key : string) (tools : list json)
  : list (json * json) :=
  map (fun t => match t with
                | JObj d => (dict_get d "name", dict_get d schema_key)
                | _ => (JNull, JNull)
                end) tools.

(** One validation of a run: token, request and the two clock reads. *)
Record validation : Type := {
  v_token : string;
  v_request : Auth.Request;
  v_now : Z;
  v_now_ts : Z
}.

(** The state after a run of validations, oldest first. *)
Fixpoint run_validations
         (http_get_jwks : nat -> result json)
         (jwt_get_unverified_header : string -> result dict)
         (public_key_pem : dict -> result string)
         (jwt_decode : string -> string -> result dict)
         (vs : list validation) (st : Auth.state) : Auth.state :=
  match vs with
  | [] => st
  | v :: rest =>
      run_validations http_get_jwks jwt_get_unverified_header public_key_pem
        jwt_decode rest
        (snd (Auth.validate_token http_get_jwks jwt_get_unverified_header
                public_key_pem jwt_decode
                (v_token v) (v_request v) (v_now v) (v_now_ts v) st))
  end.

End View.

(* ===================================================================== *)
(** ** Properties of the weather tool *)
(* ===================================================================== *)

Section WeatherFacts.
Context `{Runtime}.
Variable tape : nat -> nat.

Lemma randint_range (a b : Z) (i : nat) :
  a <= b -> a <= fst (Weather.randint tape a b i) <= b.
Proof.
  intros Hab. unfold Weather.randint. simpl.
  pose proof (Z.mod_pos_bound (Z.of_nat (tape i)) (b - a + 1)) as Hm.
  lia.
Qed.

Lemma randint_cursor (a b : Z) (i : nat) :
  snd (Weather.randint tape a b i) = S i.
Proof. reflexivity. Qed.

(** [execute] reads thirteen draws, whatever its arguments. *)
Lemma execute_cursor (timestamp : string) (city unit_ : json) (i : nat) :
  snd (Weather.execute tape timestamp city unit_ i) = (i + 13)%nat.
Proof.
  unfold Weather.execute, Weather.rbind, Weather.rret.
  destruct (eq_str unit_ "fahrenheit"); simpl; lia.
Qed.

Lemma execute_success (timestamp : string) (city unit_ : json) (i : nat) :
  lookup_key "success" (fst (Weather.execute tape timestamp city unit_ i))
  = Some (JBool true).
Proof.
  unfold Weather.execute, Weather.rbind, Weather.rret.
  destruct (eq_str unit_ "fahrenheit"); reflexivity.
Qed.

End WeatherFacts.

(** Every value of the range is drawn by some tape. *)
Lemma randint_onto (a b v : Z) :
  a <= v <= b ->
  fst (Weather.randint (fun _ => Z.to_nat (v - a)) a b 0%nat) = v.
Proof.
  intros Hv. unfold Weather.randint. simpl.
  rewrite Z2Nat.id by lia. rewrite Z.mod_small by lia. lia.
Qed.

(** C10. For every city string and every unit string, [execute] returns
    [success = True] and a [data] dictionary whose [city] is the input
    city; when the unit is ["fahrenheit"] the [unit] is ["°F"] and the
    temperature lies in 32..95, and for every other unit string, inside
    or outside the declared enum, the [unit] is ["°C"] and the
    temperature lies in 0..35, for every tape of random draws. *)
Theorem execute_city_unit_temperature
  `{Runtime} (tape : nat -> nat) (timestamp city unit_ : string) (i : nat) :
  let r := fst (Weather.execute tape timestamp (JStr city) (JStr unit_) i) in
  lookup_key "success" r = Some (JBool true) /\
  exists (data : dict) (temp : Z),
    lookup_key "data" r = Some (JObj data) /\
    lookup_key "city" data = Some (JStr city) /\
    lookup_key "temperature" data = Some (JNum temp) /\
    (if String.eqb unit_ "fahrenheit"
     then lookup_key "unit" data = Some (JStr "°F") /\ 32 <= temp <= 95
     else lookup_key "unit" data = Some (JStr "°C") /\ 0 <= temp <= 35).
Proof.
  intros r. subst r. split; [apply execute_success|].
  unfold Weather.execute, Weather.rbind, Weather.rret, Weather.randint,
    Weather.choice, eq_str.
  destruct (String.eqb unit_ "fahrenheit") eqn:Hu;
    cbn -[Z.add Z.sub Z.modulo nth Nat.modulo];
    eexists _, _; (repeat split; try reflexivity);
    match goal with
    | |- context [ Z.of_nat ?k mod ?m ] =>
        pose proof (Z.mod_pos_bound (Z.of_nat k) m)
    end; lia.
Qed.

(* ===================================================================== *)
(** ** Properties of tool dispatch, on both paths *)
(* ===================================================================== *)

Lemma truthy_city_default (arguments : dict) :
  truthy (dict_get_default arguments "city" (JStr "")) = truthy (dict_get arguments "city")
  /\ truthy (dict_get_default arguments "city" JNull) = truthy (dict_get arguments "city").
Proof.
  unfold dict_get_default, dict_get.
  destruct (lookup_key "city" arguments); split; reflexivity.
Qed.

Import Spec.

Section DispatchFacts.
Context `{Runtime}.
Variable tape : nat -> nat.

(** A tool call on the HTTP path answers the error envelope, drawing
    nothing, or the result envelope of the weather tool. *)
Lemma handle_tool_call_cases (server : result unit) (timestamp : string)
      (request : Http.MCPRequest) (i : nat) :
  (exists e, Http.handle_tool_call tape server timestamp request i
             = (tool_error (Http.id request) e, i)) \/
  (exists city unit_,
      truthy city = true /\
      Http.handle_tool_call tape server timestamp request i
      = ([ ("jsonrpc", Http.VJson (JStr "2.0"));
           ("id", Http.VJson (JNum (Http.id request)));
           ("result", Http.VContent
              [ {| type_ := "text";
                   text := JObj (fst (Weather.execute tape timestamp city unit_ i)) |} ]) ],
         snd (Weather.execute tape timestamp city unit_ i))).
Proof.
  unfold Http.handle_tool_call, Http.tool_call_body.
  destruct server as [[]|e]; [|left; eexists; reflexivity].
  destruct (truthy (dict_get (Http.params request) "name"));
    [|left; eexists; reflexivity].
  destruct (eq_str (dict_get (Http.params request) "name") "get_weather");
    [|left; eexists; reflexivity].
  destruct (dict_get_default (Http.params request) "arguments" (JObj []))
    as [| | | | |d]; try (left; eexists; reflexivity).
  cbn [Http.arguments_get ret negb].
  destruct (truthy (dict_get_default d "city" JNull)) eqn:Hc;
    [|left; eexists; reflexivity].
  right. exists (dict_get_default d "city" JNull),
                (dict_get_default d "unit" (JStr "celsius")).
  split; [exact Hc|].
  cbn [negb]. unfold Weather.rbind, Weather.rret.
  destruct (Weather.execute tape timestamp _ _ i) as [r j]. reflexivity.
Qed.

End DispatchFacts.

(** C6, as the specification words it, fails on the stdio path: with no
    [city] the text item is [{"error": ...}]; no item carries
    [success: false]. *)
Lemma stdio_missing_city_has_no_success_flag :
  ~ exists t,
      In t (fst (@Stdio.handle_call_tool Sample.runtime Sample.tape
                   Sample.timestamp "get_weather" [] 0%nat))
      /\ carries "success" (JBool false) t.
Proof.
  intros (t & Hin & d & Ht & Hs).
  cbn in Hin. destruct Hin as [<-|[]].
  cbn in Ht. injection Ht as <-. discriminate Hs.
Qed.

(** C6, amended. When [city] is absent or falsy the stdio path returns
    the single text item [{"error": "Le paramètre 'city' est requis"}]
    and the HTTP path the JSON-RPC error envelope of the request; both
    return normally, before any random draw of the weather tool; and a
    call with a truthy [city] carries [success: true] and no [error]
    member on the stdio path. *)
Theorem missing_city_fails_before_execute
  `{Runtime} (tape : nat -> nat) (timestamp : string) (arguments : dict)
  (request : Http.MCPRequest) (i : nat) :
  truthy (dict_get arguments "city") = false ->
  dict_get (Http.params request) "name" = JStr "get_weather" ->
  dict_get_default (Http.params request) "arguments" (JObj []) = JObj arguments ->
  Stdio.handle_call_tool tape timestamp "get_weather" arguments i
  = ([error_item "Le paramètre 'city' est requis"], i)
  /\ Http.handle_tool_call tape (inl tt) timestamp request i
     = (tool_error (Http.id request) (ValueError "Le paramètre 'city' est requis"), i)
  /\ forall arguments' : dict,
       truthy (dict_get arguments' "city") = true ->
       exists t,
         fst (Stdio.handle_call_tool tape timestamp "get_weather" arguments' i) = [t]
         /\ carries "success" (JBool true) t
         /\ ~ exists v, carries "error" v t.
Proof.
  intros Hcity Hname Hargs.
  destruct (truthy_city_default arguments) as [Hs Hh].
  split; [|split].
  - unfold Stdio.handle_call_tool, Stdio.try_except. cbn [String.eqb].
    change ("get_weather" =? "get_weather")%string with true. cbn iota.
    rewrite Hs, Hcity. reflexivity.
  - unfold Http.handle_tool_call, Http.tool_call_body.
    rewrite Hname, Hargs. cbn [truthy eq_str Http.arguments_get ret negb].
    change ("get_weather" =? "")%string with false.
    change ("get_weather" =? "get_weather")%string with true. cbn [negb].
    rewrite Hh, Hcity. reflexivity.
  - intros arguments' Hc.
    destruct (truthy_city_default arguments') as [Hs' _].
    unfold Stdio.handle_call_tool, Stdio.try_except.
    change ("get_weather" =? "get_weather")%string with true. cbn iota.
    rewrite Hs', Hc. cbn [negb]. unfold Weather.rbind, Weather.rret.
    set (city := dict_get_default arguments' "city" (JStr "")).
    set (unit_ := dict_get_default arguments' "unit" (JStr "celsius")).
    pose proof (execute_success tape timestamp city unit_ i) as Hok.
    destruct (Weather.execute tape timestamp city unit_ i) as [r j] eqn:Hr.
    cbn [fst ret] in *. eexists. split; [reflexivity|]. split.
    + exists r. split; [reflexivity|exact Hok].
    + intros (v & d & Hd & He). cbn in Hd. injection Hd as <-.
      unfold Weather.execute, Weather.rbind, Weather.rret in Hr.
      destruct (eq_str unit_ "fahrenheit"); cbn in Hr;
        injection Hr as <- _; discriminate He.
Qed.

Lemma missing_city_fails_before_execute_witness :
  Stdio.handle_call_tool (H := Sample.runtime) Sample.tape Sample.timestamp
    "get_weather" [("unit", JStr "celsius")] 5%nat
  = ([error_item "Le paramètre 'city' est requis"], 5%nat).
Proof.
  apply (missing_city_fails_before_execute (H := Sample.runtime) Sample.tape
           Sample.timestamp [("unit", JStr "celsius")]
           (Sample.call_request "get_weather" [("unit", JStr "celsius")]) 5%nat);
    reflexivity.
Defined.

(** C7. A call whose tool name is not ["get_weather"], the one
    registered tool, returns normally on both paths: the stdio path
    yields the text item [{"error": "Outil inconnu: <name>"}], the HTTP
    path the JSON-RPC error envelope of the request (whatever the
    [name] member holds, and also when it is missing); neither draws a
    random number. *)
Theorem unknown_tool_yields_error
  `{Runtime} (tape : nat -> nat) (timestamp name : string) (arguments : dict)
  (server : result unit) (request : Http.MCPRequest) (i : nat) :
  name <> "get_weather" ->
  eq_str (dict_get (Http.params request) "name") "get_weather" = false ->
  Stdio.handle_call_tool tape timestamp name arguments i
  = ([error_item ("Outil inconnu: " ++ name)], i)
  /\ exists e,
       Http.handle_tool_call tape server timestamp request i
       = (tool_error (Http.id request) e, i)
       /\ rpc_envelope (Http.id request) (tool_error (Http.id request) e)
       /\ error_code (tool_error (Http.id request) e) = Some (JNum (-32603)).
Proof.
  intros Hname Hreq. split.
  - unfold Stdio.handle_call_tool.
    apply String.eqb_neq in Hname. rewrite Hname. reflexivity.
  - unfold Http.handle_tool_call, Http.tool_call_body. rewrite Hreq.
    destruct server as [[]|e].
    + destruct (truthy (dict_get (Http.params request) "name"));
        eexists; (split; [reflexivity|]);
        (split; [split; [reflexivity|right; split; [reflexivity|discriminate]]
                |reflexivity]).
    + exists e. split; [reflexivity|].
      split; [split; [reflexivity|right; split; [reflexivity|discriminate]]
             |reflexivity].
Qed.

Lemma unknown_tool_yields_error_witness :
  Stdio.handle_call_tool (H := Sample.runtime) Sample.tape Sample.timestamp
    "get_time" [("city", JStr "Paris")] 0%nat
  = ([error_item "Outil inconnu: get_time"], 0%nat).
Proof.
  apply (unknown_tool_yields_error (H := Sample.runtime) Sample.tape
           Sample.timestamp "get_time" [("city", JStr "Paris")] (inl tt)
           (Sample.call_request "get_time" [("city", JStr "Paris")]) 0%nat).
  - discriminate.
  - reflexivity.
Defined.

(* ===================================================================== *)
(** ** Properties of [POST /mcp] *)
(* ===================================================================== *)

Section EndpointFacts.
Context `{Runtime}.
Variable tape : nat -> nat.

Lemma tool_error_envelope (rid : Z) (e : exn) :
  rpc_envelope rid (tool_error rid e).
Proof.
  split; [reflexivity|]. right. split; [reflexivity|discriminate].
Qed.

Lemma handle_tool_call_envelope (server : result unit) (timestamp : string)
      (request : Http.MCPRequest) (i : nat) :
  rpc_envelope (Http.id request)
               (fst (Http.handle_tool_call tape server timestamp request i)).
Proof.
  destruct (handle_tool_call_cases tape server timestamp request i)
    as [[e He]|(city & unit_ & _ & He)]; rewrite He; cbn [fst].
  - apply tool_error_envelope.
  - split; [reflexivity|]. left. split; [discriminate|reflexivity].
Qed.

End EndpointFacts.

(** Whatever the validated request, the response of
    [handle_mcp_request] is sent with status 200 or 500, its body echoes
    the [id] of the request, and exactly one of [result] and [error] is
    a member of the body; this holds for the status-500 envelope as
    well. *)
Lemma response_echoes_id_with_result_xor_error
  `{Runtime} (tape : nat -> nat) (server : result unit) (timestamp : string)
  (request : Http.MCPRequest) (i : nat) :
  let r := fst (Http.handle_mcp_request tape server timestamp request i) in
  rpc_envelope (Http.id request) (Http.content r)
  /\ (Http.status r = 200 \/
      Http.status r = 500 /\ Http.field "result" (Http.content r) = None).
Proof.
  unfold Http.handle_mcp_request, Http.mcp_request_body.
  destruct (String.eqb (Http.method request) "tools/call").
  - unfold Weather.rbind, Weather.rret.
    pose proof (handle_tool_call_envelope tape server timestamp request i) as He.
    destruct (Http.handle_tool_call tape server timestamp request i) as [b j].
    cbn. split; [exact He|left; reflexivity].
  - destruct (String.eqb (Http.method request) "tools/list");
      [|destruct (String.eqb (Http.method request) "initialize")]; cbn.
    + split; [|left; reflexivity].
      split; [reflexivity|left; split; [discriminate|reflexivity]].
    + split; [|left; reflexivity].
      split; [reflexivity|left; split; [discriminate|reflexivity]].
    + split; [|right; split; reflexivity].
      split; [reflexivity|right; split; [reflexivity|discriminate]].
Qed.

(** C5, as the specification words it, fails: the error of an
    unsupported method carries the code -32603, and not -32601. *)
Lemma unsupported_method_code_is_not_32601 :
  error_code
    (Http.content
       (fst (Http.handle_mcp_request (H := Sample.runtime) Sample.tape (inl tt)
               Sample.timestamp Sample.ping_request 0%nat)))
  <> Some (JNum (-32601)).
Proof. cbn. discriminate. Qed.

(** C5, amended. A request whose method is none of ["tools/call"],
    ["tools/list"] and ["initialize"] reaches no handler: the dispatch
    raises an [HTTPException] of status 400 that names the method, the
    exception does not leave [handle_mcp_request], no random draw is
    read, and the answer has no [result] member and does not carry the
    code -32601. *)
Theorem unsupported_method_is_refused
  `{Runtime} (tape : nat -> nat) (server : result unit) (timestamp : string)
  (request : Http.MCPRequest) (i : nat) :
  Http.method request <> "tools/call" ->
  Http.method request <> "tools/list" ->
  Http.method request <> "initialize" ->
  Http.mcp_request_body tape server timestamp request i
  = (inr (HTTPException 400
            ("Méthode non supportée: " ++ Http.method request)), i)
  /\ snd (Http.handle_mcp_request tape server timestamp request i) = i
  /\ Http.field "result"
       (Http.content
          (fst (Http.handle_mcp_request tape server timestamp request i)))
     = None
  /\ error_code
       (Http.content
          (fst (Http.handle_mcp_request tape server timestamp request i)))
     <> Some (JNum (-32601)).
Proof.
  intros H1 H2 H3.
  unfold Http.handle_mcp_request, Http.mcp_request_body.
  apply String.eqb_neq in H1, H2, H3. rewrite H1, H2, H3. cbn.
  repeat split; try reflexivity. discriminate.
Qed.

Lemma unsupported_method_is_refused_witness :
  Http.mcp_request_body (H := Sample.runtime) Sample.tape (inl tt)
    Sample.timestamp Sample.ping_request 3%nat
  = (inr (HTTPException 400 "Méthode non supportée: ping"), 3%nat).
Proof.
  apply (unsupported_method_is_refused (H := Sample.runtime) Sample.tape
           (inl tt) Sample.timestamp Sample.ping_request 3%nat);
    discriminate.
Defined.

(* ===================================================================== *)
(** ** The authentication dependency of the HTTP path *)
(* ===================================================================== *)

(** [auth.py] binds no [verify_azure_token]: the import at the top of
    [http_server.py] raises in every environment and the flag is
    [False]. *)
Lemma HAS_AZURE_AUTH_false (env0 : gmap string string) :
  Http.HAS_AZURE_AUTH env0 = false.
Proof.
  unfold Http.HAS_AZURE_AUTH, Http.import_from_auth.
  destruct (negb _); reflexivity.
Qed.

(** Hence [verify_auth] lets every request through. *)
Lemma verify_auth_allows (env0 env headers : gmap string string) :
  Http.verify_auth env0 env headers = inl (JBool true).
Proof.
  unfold Http.verify_auth, Http.verify_auth_with.
  rewrite HAS_AZURE_AUTH_false. reflexivity.
Qed.

(** With the configuration absent the gate is skipped, whatever the
    flag and the headers. *)
Lemma verify_auth_skipped_unconfigured
      (flag : bool) (verify_token : string -> result json)
      (env headers : gmap string string) :
  Http.azure_configured env = false ->
  Http.verify_auth_with flag verify_token env headers = inl (JBool true).
Proof.
  intros Hc. unfold Http.verify_auth_with. rewrite Hc.
  destruct flag; reflexivity.
Qed.

(** What the body of [verify_auth] does once the flag is set: a missing
    header, or one that does not start with ["Bearer "], is answered by
    401. *)
Lemma verify_auth_with_flag_rejects
      (verify_token : string -> result json) (env headers : gmap string string) :
  Http.azure_configured env = true ->
  match headers !! "Authorization" with
  | None => True
  | Some h => String.prefix "Bearer " h = false
  end ->
  Http.verify_auth_with true verify_token env headers
  = inr (HTTPException 401 "Token d'authentification requis").
Proof.
  intros Hc Hh. unfold Http.verify_auth_with. rewrite Hc. cbn [negb orb].
  destruct (headers !! "Authorization") as [h|]; [|reflexivity].
  rewrite Hh. cbn [negb]. rewrite orb_true_r. reflexivity.
Qed.

Lemma post_mcp_dispatches
      `{Runtime} (tape : nat -> nat) (env0 env headers : gmap string string)
      (server : result unit) (timestamp : string) (request : Http.MCPRequest) :
  Http.post_mcp tape env0 env headers server timestamp request
  = Http.handle_mcp_request tape server timestamp request.
Proof.
  unfold Http.post_mcp. rewrite verify_auth_allows. reflexivity.
Qed.

(** C1, at the failing input. With the three [AZURE_AD_*] variables set
    at import time and at request time, a [POST /mcp] without an
    [Authorization] header passes [verify_auth] and is dispatched: the
    answer to [initialize] has status 200, where the claim says 401. *)
Theorem auth_gate_open_when_configured :
  Http.azure_configured Sample.env_configured = true
  /\ Sample.no_headers !! "Authorization" = None
  /\ Http.verify_auth Sample.env_configured Sample.env_configured
       Sample.no_headers = inl (JBool true)
  /\ Http.status
       (fst (Http.post_mcp (H := Sample.runtime) Sample.tape
               Sample.env_configured Sample.env_configured Sample.no_headers
               (inl tt) Sample.timestamp Sample.initialize_request 0%nat))
     = 200.
Proof.
  split; [vm_compute; reflexivity|].
  split; [reflexivity|].
  split; [apply verify_auth_allows|].
  rewrite post_mcp_dispatches. reflexivity.
Qed.

(** C8, as the specification words it, fails: a body whose [id] is
    [null], or that has no [id], does not validate against [MCPRequest];
    the answer is a 422 whose body has no [id] member (and neither
    [result] nor [error]). *)
Lemma body_without_integer_id_gets_422 :
  Http.status
    (fst (Wire.post_mcp_body (H := Sample.runtime) Sample.tape
            (fun _ => None) (fun _ => None) (fun _ => None) (fun _ => JArr [])
            ∅ ∅ ∅ (inl tt) Sample.timestamp
            (JObj [ ("jsonrpc", JStr "2.0"); ("id", JNull);
                    ("method", JStr "initialize"); ("params", JObj []) ])
            0%nat))
  = 422
  /\ Http.field "id"
       (Http.content
          (fst (Wire.post_mcp_body (H := Sample.runtime) Sample.tape
                  (fun _ => None) (fun _ => None) (fun _ => None)
                  (fun _ => JArr [])
                  ∅ ∅ ∅ (inl tt) Sample.timestamp
                  (JObj [ ("jsonrpc", JStr "2.0"); ("id", JNull);
                          ("method", JStr "initialize"); ("params", JObj []) ])
                  0%nat)))
     = None
  /\ Http.status
       (fst (Wire.post_mcp_body (H := Sample.runtime) Sample.tape
               (fun _ => None) (fun _ => None) (fun _ => None)
               (fun _ => JArr [])
               ∅ ∅ ∅ (inl tt) Sample.timestamp
               (JObj [ ("jsonrpc", JStr "2.0");
                       ("method", JStr "initialize") ])
               0%nat))
     = 422.
Proof. repeat split; reflexivity. Qed.

(** C8, amended. For every body of [POST /mcp], whatever pydantic makes
    of values of another type: when the body validates against
    [MCPRequest] the response has status 200 or 500, echoes the [id] of
    the validated request and has exactly one of [result] and [error];
    when it does not, the response is a 422 with neither [id] nor
    [result] nor [error]; and a body that is no object, or has no [id]
    or a [null] [id], does not validate. *)
Theorem post_mcp_echoes_id_or_refuses_body
  `{Runtime} (tape : nat -> nat)
  (lax_int : json -> option Z) (lax_str : json -> option string)
  (lax_dict : json -> option dict) (validation_detail : json -> json)
  (env0 env headers : gmap string string)
  (server : result unit) (timestamp : string) (body : json) (i : nat) :
  let r := fst (Wire.post_mcp_body tape lax_int lax_str lax_dict
                  validation_detail env0 env headers server timestamp body i) in
  match Wire.parse_request lax_int lax_str lax_dict body with
  | Some request =>
      rpc_envelope (Http.id request) (Http.content r)
      /\ (Http.status r = 200 \/
          Http.status r = 500 /\ Http.field "result" (Http.content r) = None)
  | None =>
      Http.status r = 422
      /\ Http.field "id" (Http.content r) = None
      /\ Http.field "result" (Http.content r) = None
      /\ Http.field "error" (Http.content r) = None
  end
  /\ (match body with
      | JObj d =>
          lookup_key "id" d = None \/ lookup_key "id" d = Some JNull ->
          Wire.parse_request lax_int lax_str lax_dict body = None
      | _ => Wire.parse_request lax_int lax_str lax_dict body = None
      end).
Proof.
  intros r. subst r. split.
  - unfold Wire.post_mcp_body. rewrite verify_auth_allows.
    destruct (Wire.parse_request lax_int lax_str lax_dict body) as [request|].
    + apply response_echoes_id_with_result_xor_error.
    + cbn. repeat split; reflexivity.
  - destruct body as [| | | | |d]; try reflexivity.
    intros [Hid|Hid]; cbn [Wire.parse_request]; rewrite Hid; [reflexivity|].
    destruct (lookup_key "method" d); reflexivity.
Qed.

(* ===================================================================== *)
(** ** The role guard *)
(* ===================================================================== *)

Lemma existsb_eq_str_In (x : string) (l : list json) :
  existsb (fun y => eq_str y x) l = true <-> List.In (JStr x) l.
Proof.
  induction l as [|y l IH]; cbn [existsb List.In].
  - split; [discriminate|tauto].
  - rewrite orb_true_iff, IH. split.
    + intros [Hy|Hl]; [left|right; exact Hl].
      destruct y; cbn in Hy; try discriminate.
      apply String.eqb_eq in Hy. now subst.
    + intros [->|Hl]; [left|right; exact Hl].
      cbn. apply String.eqb_refl.
Qed.

(** C9. For a claims payload whose [roles] member is a list, or is
    missing, and for every required role, the guard returns the payload
    exactly when the list contains the required role or ["admin"], and
    otherwise raises [HTTPException] with status 403. *)
Theorem require_role_iff_role_or_admin
  (required_role : string) (user : dict) (roles : list json) :
  dict_get_default user "roles" (JArr []) = JArr roles ->
  (Auth.require_role required_role user = inl user
   <-> List.In (JStr required_role) roles \/ List.In (JStr "admin") roles)
  /\ (~ (List.In (JStr required_role) roles \/ List.In (JStr "admin") roles) ->
      Auth.require_role required_role user
      = inr (HTTPException 403 ("Rôle requis: " ++ required_role))).
Proof.
  intros Hroles. unfold Auth.require_role. rewrite Hroles.
  cbn [Auth.str_in bind ret].
  pose proof (existsb_eq_str_In required_role roles) as Hr.
  pose proof (existsb_eq_str_In "admin" roles) as Ha.
  destruct (existsb (fun y => eq_str y required_role) roles);
    [|destruct (existsb (fun y => eq_str y "admin") roles)]; cbn.
  - split; [split; [intros _; left; apply Hr; reflexivity|reflexivity]|].
    intros Hn. exfalso. apply Hn. left. apply Hr. reflexivity.
  - split; [split; [intros _; right; apply Ha; reflexivity|reflexivity]|].
    intros Hn. exfalso. apply Hn. right. apply Ha. reflexivity.
  - split; [split|reflexivity].
    + discriminate.
    + intros [Hi|Hi]; [apply Hr in Hi|apply Ha in Hi]; discriminate.
Qed.

Lemma require_role_iff_role_or_admin_witness :
  Auth.require_role "writer" (Sample.payload_exp 10)
  = inr (HTTPException 403 "Rôle requis: writer").
Proof.
  apply (require_role_iff_role_or_admin "writer" (Sample.payload_exp 10)
           [JStr "reader"]).
  - reflexivity.
  - intros [[H|[]]|[H|[]]]; discriminate H.
Defined.

(* ===================================================================== *)
(** ** The key-set cache and token validation *)
(* ===================================================================== *)

Section GateFacts.
Variable http_get_jwks : nat -> result json.
Variable jwt_get_unverified_header : string -> result dict.
Variable public_key_pem : dict -> result string.
Variable jwt_decode : string -> string -> result dict.

Local Abbreviation get_jwks := (Auth.get_jwks http_get_jwks).
Local Abbreviation get_public_key := (Auth.get_public_key public_key_pem).
Local Abbreviation validate_token :=
  (Auth.validate_token http_get_jwks jwt_get_unverified_header
                       public_key_pem jwt_decode).

Lemma get_jwks_hit (now : Z) (st : Auth.state) :
  Auth.cache_fresh (Auth.self st) now = true ->
  get_jwks now st = (inl (Auth.jwks_cache (Auth.self st)), st).
Proof. intros Hf. unfold Auth.get_jwks, Auth.get_jwks_send, Auth.get_jwks_receive. rewrite Hf. reflexivity. Qed.

Lemma get_jwks_miss (now : Z) (st : Auth.state) :
  Auth.cache_fresh (Auth.self st) now = false ->
  get_jwks now st
  = match http_get_jwks (Auth.fetches st) with
    | inl keys =>
        (inl keys,
         {| Auth.self := {| Auth.jwks_cache := keys;
                            Auth.jwks_cache_time := Some now |};
            Auth.fetches := S (Auth.fetches st) |})
    | inr _ =>
        (inr (HTTPException 503 "Service d'authentification indisponible"),
         {| Auth.self := Auth.self st; Auth.fetches := S (Auth.fetches st) |})
    end.
Proof. intros Hf. unfold Auth.get_jwks, Auth.get_jwks_send, Auth.get_jwks_receive. rewrite Hf. reflexivity. Qed.

(** Only [get_jwks] touches the object: a validation leaves the state
    [get_jwks] leaves, or the initial one when the token header does
    not parse. *)
Lemma validate_token_state (token : string) (request : Auth.Request)
      (now now_ts : Z) (st : Auth.state) :
  snd (validate_token token request now now_ts st)
  = match jwt_get_unverified_header token with
    | inl _ => snd (get_jwks now st)
    | inr _ => st
    end.
Proof.
  unfold Auth.validate_token, Auth.validate_token_body, Auth.mbind,
    Auth.lift, Auth.mraise, Auth.mret.
  destruct (jwt_get_unverified_header token) as [h|e]; [|reflexivity].
  destruct (get_jwks now st) as [[jwks|e] st1]; [|reflexivity].
  destruct (get_public_key h jwks) as [k|e]; [|reflexivity].
  destruct (jwt_decode token k) as [p|e]; [|reflexivity].
  destruct (Auth.exp_before p now_ts) as [[]|e]; try reflexivity.
  destruct (Auth.log_access _ _ _ _); reflexivity.
Qed.

(** The outcome of a validation that reaches [jwt.decode]. *)
Lemma validate_token_decode (token : string) (request : Auth.Request)
      (now now_ts : Z) (st st1 : Auth.state)
      (header : dict) (jwks : json) (key : string) :
  jwt_get_unverified_header token = inl header ->
  get_jwks now st = (inl jwks, st1) ->
  get_public_key header jwks = inl key ->
  validate_token token request now now_ts st
  = (match jwt_decode token key with
     | inr e => inr (Auth.validate_token_handler e)
     | inl payload =>
         match Auth.exp_before payload now_ts with
         | inr e => inr (Auth.validate_token_handler e)
         | inl true => inr (HTTPException 401 "Erreur d'authentification")
         | inl false =>
             match Auth.log_access
                     (dict_get_default payload "sub" (JStr "unknown"))
                     (Auth.url_path request) true
                     (match Auth.client_host request with
                      | Some h => h
                      | None => "unknown"
                      end) with
             | inl _ => inl payload
             | inr e => inr (Auth.validate_token_handler e)
             end
         end
     end, st1).
Proof.
  intros Hh Hj Hk.
  unfold Auth.validate_token, Auth.validate_token_body, Auth.mbind,
    Auth.lift, Auth.mraise, Auth.mret.
  rewrite Hh, Hj, Hk.
  destruct (jwt_decode token key) as [p|e]; [|reflexivity].
  destruct (Auth.exp_before p now_ts) as [[]|e]; try reflexivity.
  destruct (Auth.log_access _ _ _ _); reflexivity.
Qed.

(** Whatever goes wrong, [validate_token] raises a 401. *)
Lemma validate_token_failure_401 (token : string) (request : Auth.Request)
      (now now_ts : Z) (st : Auth.state) (e : exn) :
  fst (validate_token token request now now_ts st) = inr e ->
  exists detail, e = HTTPException 401 detail.
Proof.
  unfold Auth.validate_token.
  destruct (Auth.validate_token_body _ _ _ _ _ _ _ _ _) as [[p|e'] st'];
    cbn [fst]; [discriminate|].
  intros [= <-]. destruct e'; eexists; reflexivity.
Qed.

(** A payload is returned only if its [exp] is not before the clock
    of the expiry test. *)
Lemma validate_token_accepts_unexpired (token : string)
      (request : Auth.Request) (now now_ts : Z) (st : Auth.state)
      (payload : dict) :
  fst (validate_token token request now now_ts st) = inl payload ->
  Auth.exp_before payload now_ts = inl false.
Proof.
  unfold Auth.validate_token, Auth.validate_token_body, Auth.mbind,
    Auth.lift, Auth.mraise, Auth.mret.
  destruct (jwt_get_unverified_header token) as [h|e]; [|discriminate].
  destruct (get_jwks now st) as [[jwks|e] st1]; [|discriminate].
  destruct (get_public_key h jwks) as [k|e]; [|discriminate].
  destruct (jwt_decode token k) as [p|e]; [|discriminate].
  destruct (Auth.exp_before p now_ts) as [[]|e] eqn:He; try discriminate.
  destruct (Auth.log_access _ _ _ _); [|discriminate].
  cbn. intros [= <-]. exact He.
Qed.

End GateFacts.

Section GateClaims.
Variable http_get_jwks : nat -> result json.
Variable jwt_get_unverified_header : string -> result dict.
Variable public_key_pem : dict -> result string.
Variable jwt_decode : string -> string -> result dict.

Local Abbreviation get_jwks := (Auth.get_jwks http_get_jwks).
Local Abbreviation get_public_key := (Auth.get_public_key public_key_pem).
Local Abbreviation validate_token :=
  (Auth.validate_token http_get_jwks jwt_get_unverified_header
                       public_key_pem jwt_decode).

Lemma get_jwks_fetches_le (now : Z) (st : Auth.state) :
  (Auth.fetches (snd (get_jwks now st)) <= S (Auth.fetches st))%nat.
Proof.
  unfold Auth.get_jwks, Auth.get_jwks_send, Auth.get_jwks_receive.
  destruct (Auth.cache_fresh (Auth.self st) now); [cbn; lia|].
  destruct (http_get_jwks (Auth.fetches st)); cbn; lia.
Qed.

(** C2, amended. A token whose key identifier matches no record of the
    key set that [get_jwks] returns is rejected with status 401, and
    the validation leaves the state [get_jwks] left: on a cache hit the
    cached set is the only one consulted and no request is sent to the
    discovery endpoint. *)
Theorem unknown_kid_rejected_without_refresh
  (token : string) (request : Auth.Request) (now now_ts : Z)
  (st st1 : Auth.state) (header d : dict) (keys : list json) :
  jwt_get_unverified_header token = inl header ->
  truthy (dict_get header "kid") = true ->
  get_jwks now st = (inl (JObj d), st1) ->
  dict_get_default d "keys" (JArr []) = JArr keys ->
  Auth.find_key (dict_get header "kid") keys = inl None ->
  rejected 401 (fst (validate_token token request now now_ts st))
  /\ snd (validate_token token request now now_ts st) = st1
  /\ (Auth.cache_fresh (Auth.self st) now = true ->
      st1 = st /\
      Auth.fetches (snd (validate_token token request now now_ts st))
      = Auth.fetches st).
Proof.
  intros Hh Hkid Hj Hkeys Hfind.
  assert (Hv : validate_token token request now now_ts st
               = (inr (HTTPException 401 "Erreur d'authentification"), st1)).
  { unfold Auth.validate_token, Auth.validate_token_body, Auth.mbind,
      Auth.lift, Auth.mraise, Auth.mret.
    rewrite Hh, Hj. unfold Auth.get_public_key.
    rewrite Hkid, Hkeys, Hfind. reflexivity. }
  rewrite Hv. cbn [fst snd]. split; [eexists; reflexivity|].
  split; [reflexivity|].
  intros Hf. rewrite (get_jwks_hit _ _ _ Hf) in Hj.
  injection Hj as _ <-. split; reflexivity.
Qed.

(** C3, amended. (1) Two validations run one after the other, the
    second on the state the first has left, whose cache clocks are less
    than one hour apart, send at most one request to the discovery
    endpoint, provided the endpoint answers the next request with a
    truthy key set.  (2) A validation that runs without another one in
    between, whose token header parses and that finds the cache empty
    or older than one hour, sends exactly one request; when the request
    succeeds the cache holds the fetched key set and the time of the
    validation, and when it fails the cache is unchanged. *)
Theorem key_set_cache_fetches
  (st : Auth.state)
  (token1 token2 : string) (request1 request2 : Auth.Request)
  (t1 u1 t2 u2 : Z) :
  (t2 - t1 < Auth.window ->
   (exists keys, http_get_jwks (Auth.fetches st) = inl keys
                 /\ truthy keys = true) ->
   (Auth.fetches
      (snd (validate_token token2 request2 t2 u2
              (snd (validate_token token1 request1 t1 u1 st))))
    <= S (Auth.fetches st))%nat)
  /\ (Auth.cache_fresh (Auth.self st) t1 = false ->
      (exists header, jwt_get_unverified_header token1 = inl header) ->
      let st' := snd (validate_token token1 request1 t1 u1 st) in
      Auth.fetches st' = S (Auth.fetches st)
      /\ match http_get_jwks (Auth.fetches st) with
         | inl keys =>
             Auth.self st' = {| Auth.jwks_cache := keys;
                                Auth.jwks_cache_time := Some t1 |}
         | inr _ => Auth.self st' = Auth.self st
         end).
Proof.
  split.
  - intros Hw (keys & Hget & Htruthy).
    rewrite !validate_token_state.
    assert (Hone : forall s : Auth.state,
               Auth.fetches s = Auth.fetches st ->
               (Auth.fetches
                  match jwt_get_unverified_header token2 with
                  | inl _ => snd (get_jwks t2 s)
                  | inr _ => s
                  end <= S (Auth.fetches st))%nat).
    { intros s Hs. destruct (jwt_get_unverified_header token2).
      - rewrite <- Hs. apply get_jwks_fetches_le.
      - lia. }
    destruct (jwt_get_unverified_header token1) as [h1|e1];
      [|apply Hone; reflexivity].
    destruct (Auth.cache_fresh (Auth.self st) t1) eqn:Hf.
    + rewrite (get_jwks_hit _ _ _ Hf). apply Hone. reflexivity.
    + rewrite (get_jwks_miss _ _ _ Hf), Hget. cbn [snd].
      destruct (jwt_get_unverified_header token2); [|cbn; lia].
      rewrite get_jwks_hit; [cbn; lia|].
      unfold Auth.cache_fresh. cbn. rewrite Htruthy, andb_true_r.
      apply Z.ltb_lt. exact Hw.
  - intros Hf (header & Hh) st'. subst st'.
    rewrite validate_token_state, Hh, (get_jwks_miss _ _ _ Hf).
    destruct (http_get_jwks (Auth.fetches st)); cbn; split; reflexivity.
Qed.

(** C4, amended. For a validation that reaches [jwt.decode]: when
    PyJWT reports the expiry the token is rejected with 401
    ["Token expiré"]; when PyJWT refuses the token for another reason,
    an invalid signature among them, it is rejected with 401
    ["Token invalide"], whatever its expiry; and when PyJWT returns a
    payload whose [exp] (0 when missing) is strictly before the current
    time, the token is rejected with status 401. *)
Theorem expired_token_rejected
  (token : string) (request : Auth.Request) (now now_ts : Z)
  (st st1 : Auth.state) (header : dict) (jwks : json) (key : string) :
  jwt_get_unverified_header token = inl header ->
  get_jwks now st = (inl jwks, st1) ->
  get_public_key header jwks = inl key ->
  (jwt_decode token key = inr ExpiredSignatureError ->
   validate_token token request now now_ts st
   = (inr (HTTPException 401 "Token expiré"), st1))
  /\ (jwt_decode token key = inr InvalidTokenError ->
      validate_token token request now now_ts st
      = (inr (HTTPException 401 "Token invalide"), st1))
  /\ (forall payload n,
        jwt_decode token key = inl payload ->
        dict_get_default payload "exp" (JNum 0) = JNum n ->
        n * Auth.second < now_ts ->
        rejected 401 (fst (validate_token token request now now_ts st))).
Proof.
  intros Hh Hj Hk.
  rewrite (validate_token_decode _ _ _ _ token request now now_ts st st1
           header jwks key Hh Hj Hk).
  split; [|split].
  - intros ->. reflexivity.
  - intros ->. reflexivity.
  - intros payload n Hd Hn Hlt. rewrite Hd. unfold Auth.exp_before.
    rewrite Hn. apply Z.ltb_lt in Hlt. cbn [ret]. rewrite Hlt.
    eexists. reflexivity.
Qed.

End GateClaims.

(* ===================================================================== *)
(** ** Closed examples for the gate *)
(* ===================================================================== *)

(** C2, as the specification words it, fails.  The cache, filled one
    second ago, holds the key ["old"]; the token is signed with ["new"],
    which the discovery endpoint serves.  The validation sends no
    request (the state, and the count of requests in it, is unchanged)
    and rejects the token, although the fresh key set has its key. *)
Lemma cache_hit_unknown_kid_is_not_refreshed :
  Auth.cache_fresh (Auth.self Sample.cached_old) Auth.second = true
  /\ Auth.get_public_key Sample.pem_of
       [("alg", JStr "RS256"); ("kid", JStr "new")] (Sample.keyset "new")
     = inl "PEM"
  /\ Auth.validate_token Sample.fetch_new Sample.header_of Sample.pem_of
       (Sample.decode_exp 4102444800) "token" Sample.request
       Auth.second Auth.second Sample.cached_old
     = (inr (HTTPException 401 "Erreur d'authentification"), Sample.cached_old)
  /\ Auth.fetches Sample.cached_old <> S (Auth.fetches Sample.cached_old).
Proof.
  split; [reflexivity|]. split; [reflexivity|].
  split; [reflexivity|]. cbn. lia.
Qed.

Lemma unknown_kid_rejected_without_refresh_witness :
  rejected 401
    (fst (Auth.validate_token Sample.fetch_new Sample.header_of Sample.pem_of
            (Sample.decode_exp 4102444800) "token" Sample.request
            Auth.second Auth.second Sample.cached_old))
  /\ snd (Auth.validate_token Sample.fetch_new Sample.header_of Sample.pem_of
            (Sample.decode_exp 4102444800) "token" Sample.request
            Auth.second Auth.second Sample.cached_old)
     = Sample.cached_old.
Proof.
  destruct (unknown_kid_rejected_without_refresh
              Sample.fetch_new Sample.header_of Sample.pem_of
              (Sample.decode_exp 4102444800) "token" Sample.request
              Auth.second Auth.second Sample.cached_old Sample.cached_old
              [("alg", JStr "RS256"); ("kid", JStr "new")]
              [("keys", JArr [JObj [("kid", JStr "old"); ("n", JStr "AQAB");
                                    ("e", JStr "AQAB")]])]
              [JObj [("kid", JStr "old"); ("n", JStr "AQAB"); ("e", JStr "AQAB")]]
              eq_refl eq_refl eq_refl eq_refl eq_refl) as (Hr & Hs & _).
  split; [exact Hr|exact Hs].
Defined.

(** C3, as the specification words it, fails.  (1) With an empty cache
    and a discovery endpoint that answers, two validations one second
    apart whose calls of [get_jwks] overlap both find the cache empty
    and both send a request.  (2) With the endpoint down, two
    validations one second apart, run one after the other, send two
    requests, and after the first one the cache holds no key set. *)
Lemma two_validations_can_fetch_twice :
  Auth.second - 0 < Auth.window
  /\ Sample.fetch_new 0%nat = inl (Sample.keyset "new")
  /\ Auth.fetches
       (snd (Auth.get_jwks_overlapped Sample.fetch_new 0 Auth.second
               Sample.empty_state))
     = 2%nat
  /\ Auth.fetches
       (snd (Auth.validate_token Sample.fetch_down Sample.header_of
               Sample.pem_of (Sample.decode_exp 4102444800) "token"
               Sample.request Auth.second Auth.second
               (snd (Auth.validate_token Sample.fetch_down Sample.header_of
                       Sample.pem_of (Sample.decode_exp 4102444800) "token"
                       Sample.request 0 0 Sample.empty_state))))
     = 2%nat
  /\ Auth.self
       (snd (Auth.validate_token Sample.fetch_down Sample.header_of
               Sample.pem_of (Sample.decode_exp 4102444800) "token"
               Sample.request 0 0 Sample.empty_state))
     = Auth.new_AzureADAuth.
Proof.
  repeat split; reflexivity.
Qed.

Lemma key_set_cache_fetches_witness :
  (Auth.fetches
     (snd (Auth.validate_token Sample.fetch_new Sample.header_of
             Sample.pem_of (Sample.decode_exp 4102444800) "token"
             Sample.request Auth.second Auth.second
             (snd (Auth.validate_token Sample.fetch_new Sample.header_of
                     Sample.pem_of (Sample.decode_exp 4102444800) "token"
                     Sample.request 0 0 Sample.empty_state))))
   <= 1)%nat
  /\ Auth.self
       (snd (Auth.validate_token Sample.fetch_new Sample.header_of
               Sample.pem_of (Sample.decode_exp 4102444800) "token"
               Sample.request 0 0 Sample.empty_state))
     = {| Auth.jwks_cache := Sample.keyset "new";
          Auth.jwks_cache_time := Some 0 |}.
Proof.
  destruct (key_set_cache_fetches
              Sample.fetch_new Sample.header_of Sample.pem_of
              (Sample.decode_exp 4102444800) Sample.empty_state
              "token" "token" Sample.request Sample.request
              0 0 Auth.second Auth.second) as [Hpair Hone].
  split.
  - apply Hpair; [reflexivity|].
    exists (Sample.keyset "new"). split; reflexivity.
  - apply Hone; [reflexivity|]. eexists. reflexivity.
Defined.

(** C4, as the specification words it, fails.  The token ["forged"]
    expired at second 100 and the clocks read second 200, but its
    signature does not verify: PyJWT refuses it before it looks at
    [exp], and the answer is 401 ["Token invalide"], which is not the
    token-expired error. *)
Lemma expired_token_with_bad_signature_is_invalid :
  dict_get_default (Sample.claims_of "forged") "exp" (JNum 0) = JNum 100
  /\ 100 * Auth.second < 200 * Auth.second
  /\ Sample.signed "forged" = false
  /\ Auth.validate_token Sample.fetch_new Sample.header_of Sample.pem_of
       (Sample.pyjwt_decode (200 * Auth.second) Sample.signed Sample.claims_of)
       "forged" Sample.request Auth.second (200 * Auth.second)
       Sample.cached_new
     = (inr (HTTPException 401 "Token invalide"), Sample.cached_new)
  /\ HTTPException 401 "Token invalide" <> HTTPException 401 "Token expiré".
Proof.
  repeat split; try reflexivity. discriminate.
Qed.

Lemma expired_token_rejected_witness :
  Auth.validate_token Sample.fetch_new Sample.header_of Sample.pem_of
    (Sample.pyjwt_decode (200 * Auth.second) Sample.signed Sample.claims_of)
    "token" Sample.request Auth.second (200 * Auth.second) Sample.cached_new
  = (inr (HTTPException 401 "Token expiré"), Sample.cached_new).
Proof.
  apply (proj1 (expired_token_rejected
                  Sample.fetch_new Sample.header_of Sample.pem_of
                  (Sample.pyjwt_decode (200 * Auth.second) Sample.signed
                     Sample.claims_of)
                  "token" Sample.request Auth.second (200 * Auth.second)
                  Sample.cached_new Sample.cached_new
                  [("alg", JStr "RS256"); ("kid", JStr "new")]
                  (Sample.keyset "new") "PEM" eq_refl eq_refl eq_refl)).
  reflexivity.
Defined.

(* ===================================================================== *)
(** ** More on the weather tool *)
(* ===================================================================== *)

Import View.

Section WeatherMore.
Context `{Runtime}.
Variable tape : nat -> nat.

Lemma draw_range (a b : Z) (k : nat) : a <= b -> a <= draw tape a b k <= b.
Proof.
  intros Hab. unfold draw.
  pose proof (Z.mod_pos_bound (Z.of_nat (tape k)) (b - a + 1)). lia.
Qed.

(** The members of [data] in terms of the draws at the cursor. *)
Lemma execute_data (timestamp : string) (city unit_ : json) (i : nat) :
  let r := fst (Weather.execute tape timestamp city unit_ i) in
  let temp := if eq_str unit_ "fahrenheit"
              then draw tape 32 95 i else draw tape 0 35 i in
  data_field "temperature" r = Some (JNum temp)
  /\ data_field "condition" r
     = Some (JStr (nth (tape (1 + i) mod 7)%nat Weather.weather_conditions ""))
  /\ data_field "humidity" r = Some (JNum (draw tape 30 90 (2 + i)))
  /\ data_field "wind_speed" r = Some (JNum (draw tape 5 30 (3 + i)))
  /\ data_field "pressure" r = Some (JNum (draw tape 980 1030 (4 + i)))
  /\ data_field "visibility" r = Some (JNum (draw tape 5 15 (5 + i)))
  /\ data_field "uv_index" r = Some (JNum (draw tape 1 10 (6 + i)))
  /\ forecast_field 0 "high" r = Some (JNum (temp + draw tape (-5) 5 (7 + i)))
  /\ forecast_field 0 "low" r = Some (JNum (temp - draw tape 5 15 (8 + i)))
  /\ forecast_field 1 "high" r = Some (JNum (temp + draw tape (-8) 8 (10 + i)))
  /\ forecast_field 1 "low" r = Some (JNum (temp - draw tape 3 12 (11 + i))).
Proof.
  unfold Weather.execute, Weather.rbind, Weather.rret, Weather.randint,
    Weather.choice, draw.
  destruct (eq_str unit_ "fahrenheit"); repeat split; reflexivity.
Qed.

End WeatherMore.

(** X1. Whatever the arguments and the draws, the readings of [data]
    lie in the ranges the code draws them from (humidity 30..90, wind
    speed 5..30, pressure 980..1030, visibility 5..15, UV index 1..10)
    and the condition is one of the seven of [weather_conditions]. *)
Theorem weather_readings_in_range
  `{Runtime} (tape : nat -> nat) (timestamp : string) (city unit_ : json)
  (i : nat) :
  let r := fst (Weather.execute tape timestamp city unit_ i) in
  exists humidity wind_speed pressure visibility uv_index condition,
    data_field "humidity" r = Some (JNum humidity) /\ 30 <= humidity <= 90
    /\ data_field "wind_speed" r = Some (JNum wind_speed)
       /\ 5 <= wind_speed <= 30
    /\ data_field "pressure" r = Some (JNum pressure)
       /\ 980 <= pressure <= 1030
    /\ data_field "visibility" r = Some (JNum visibility)
       /\ 5 <= visibility <= 15
    /\ data_field "uv_index" r = Some (JNum uv_index) /\ 1 <= uv_index <= 10
    /\ data_field "condition" r = Some (JStr condition)
       /\ List.In condition Weather.weather_conditions.
Proof.
  intros r.
  destruct (execute_data tape timestamp city unit_ i)
    as (_ & Hc & Hh & Hw & Hp & Hv & Hu & _).
  fold r in Hc, Hh, Hw, Hp, Hv, Hu.
  do 6 eexists.
  split; [exact Hh|]. split; [apply draw_range; lia|].
  split; [exact Hw|]. split; [apply draw_range; lia|].
  split; [exact Hp|]. split; [apply draw_range; lia|].
  split; [exact Hv|]. split; [apply draw_range; lia|].
  split; [exact Hu|]. split; [apply draw_range; lia|].
  split; [exact Hc|].
  apply nth_In. change (length Weather.weather_conditions) with 7%nat.
  apply Nat.mod_upper_bound. discriminate.
Qed.

(** X2. In the forecast for "Demain" the high is within 5 degrees of
    the current temperature and the low is 5 to 15 degrees under it, so
    the low never exceeds the high. *)
Theorem forecast_tomorrow_low_le_high
  `{Runtime} (tape : nat -> nat) (timestamp : string) (city unit_ : json)
  (i : nat) :
  let r := fst (Weather.execute tape timestamp city unit_ i) in
  exists temp high low,
    data_field "temperature" r = Some (JNum temp)
    /\ forecast_field 0 "day" r = Some (JStr "Demain")
    /\ forecast_field 0 "high" r = Some (JNum high)
    /\ forecast_field 0 "low" r = Some (JNum low)
    /\ temp - 5 <= high <= temp + 5
    /\ temp - 15 <= low <= temp - 5
    /\ low <= high.
Proof.
  intros r.
  destruct (execute_data tape timestamp city unit_ i)
    as (Ht & _ & _ & _ & _ & _ & _ & Hhi & Hlo & _).
  fold r in Ht, Hhi, Hlo.
  pose proof (draw_range tape (-5) 5 (7 + i) ltac:(lia)) as H1.
  pose proof (draw_range tape 5 15 (8 + i) ltac:(lia)) as H2.
  do 3 eexists.
  split; [exact Ht|]. split.
  { subst r. unfold Weather.execute, Weather.rbind, Weather.rret,
      Weather.randint, Weather.choice.
    destruct (eq_str unit_ "fahrenheit"); reflexivity. }
  split; [exact Hhi|]. split; [exact Hlo|]. lia.
Qed.

(** X3. In the forecast for "Après-demain" the high is drawn within 8
    degrees of the temperature and the low 3 to 12 degrees under it; the
    low is above the high exactly when the two raw offsets add up to
    less than 5. *)
Theorem forecast_day_after_low_above_high_iff
  `{Runtime} (tape : nat -> nat) (timestamp : string) (city unit_ : json)
  (i : nat) :
  let r := fst (Weather.execute tape timestamp city unit_ i) in
  exists high low,
    forecast_field 1 "high" r = Some (JNum high)
    /\ forecast_field 1 "low" r = Some (JNum low)
    /\ (high < low <->
        Z.of_nat (tape (10 + i)%nat) mod 17
        + Z.of_nat (tape (11 + i)%nat) mod 10 < 5).
Proof.
  intros r.
  destruct (execute_data tape timestamp city unit_ i)
    as (_ & _ & _ & _ & _ & _ & _ & _ & _ & Hhi & Hlo).
  fold r in Hhi, Hlo.
  do 2 eexists. split; [exact Hhi|]. split; [exact Hlo|].
  unfold draw.
  change (8 - -8 + 1) with 17. change (12 - 3 + 1) with 10. lia.
Qed.

(** The low of "Après-demain" does exceed the high on some tape. *)
Example forecast_day_after_inverted :
  forecast_field 1 "high"
    (fst (Weather.execute (H := Sample.runtime) (fun _ => 0%nat)
            Sample.timestamp (JStr "Paris") (JStr "celsius") 0%nat))
  = Some (JNum (-8))
  /\ forecast_field 1 "low"
       (fst (Weather.execute (H := Sample.runtime) (fun _ => 0%nat)
               Sample.timestamp (JStr "Paris") (JStr "celsius") 0%nat))
     = Some (JNum (-3)).
Proof. split; reflexivity. Qed.

(** X4. [execute] reads the thirteen draws at the cursor and nothing
    else: on two tapes that agree there, result and cursor are the
    same. *)
Theorem execute_reads_thirteen_draws
  `{Runtime} (tape tape' : nat -> nat) (timestamp : string)
  (city unit_ : json) (i : nat) :
  (forall k, (i <= k < i + 13)%nat -> tape k = tape' k) ->
  Weather.execute tape timestamp city unit_ i
  = Weather.execute tape' timestamp city unit_ i
  /\ snd (Weather.execute tape timestamp city unit_ i) = (i + 13)%nat.
Proof.
  intros Hk. split; [|apply execute_cursor].
  unfold Weather.execute, Weather.rbind, Weather.rret, Weather.randint,
    Weather.choice.
  destruct (eq_str unit_ "fahrenheit");
    cbn -[Z.add Z.sub Z.modulo nth Nat.modulo];
    repeat match goal with
           | |- context [tape ?k] => rewrite (Hk k) by lia
           end;
    reflexivity.
Qed.

Lemma execute_reads_thirteen_draws_witness :
  Weather.execute (H := Sample.runtime) Sample.tape Sample.timestamp
    (JStr "Paris") (JStr "celsius") 0%nat
  = Weather.execute (H := Sample.runtime)
      (fun k => if (k <? 13)%nat then Sample.tape k else 0%nat)
      Sample.timestamp (JStr "Paris") (JStr "celsius") 0%nat.
Proof.
  apply (execute_reads_thirteen_draws (H := Sample.runtime) Sample.tape
           (fun k => if (k <? 13)%nat then Sample.tape k else 0%nat)
           Sample.timestamp (JStr "Paris") (JStr "celsius") 0%nat).
  intros k Hk. destruct (Nat.ltb_spec k 13); [reflexivity|lia].
Defined.

(* ===================================================================== *)
(** ** More on tool dispatch *)
(* ===================================================================== *)

(** X5. On the stdio path every call, whatever the tool name and the
    arguments, returns exactly one item of type ["text"] whose document
    is a JSON object, and reads either no draw or the thirteen draws of
    the weather tool. *)
Theorem stdio_call_returns_one_text_item
  `{Runtime} (tape : nat -> nat) (timestamp name : string) (arguments : dict)
  (i : nat) :
  exists d,
    fst (Stdio.handle_call_tool tape timestamp name arguments i)
    = [ {| type_ := "text"; text := JObj d |} ]
    /\ (snd (Stdio.handle_call_tool tape timestamp name arguments i) = i
        \/ snd (Stdio.handle_call_tool tape timestamp name arguments i)
           = (i + 13)%nat).
Proof.
  unfold Stdio.handle_call_tool, Stdio.try_except.
  destruct (String.eqb name "get_weather").
  - destruct (truthy (dict_get_default arguments "city" (JStr ""))); cbn [negb].
    + unfold Weather.rbind, Weather.rret.
      pose proof (execute_cursor tape timestamp
                    (dict_get_default arguments "city" (JStr ""))
                    (dict_get_default arguments "unit" (JStr "celsius")) i) as Hc.
      destruct (Weather.execute tape timestamp _ _ i) as [r j].
      cbn in *. eexists. split; [reflexivity|right; exact Hc].
    + cbn. eexists. split; [reflexivity|left; reflexivity].
  - cbn. eexists. split; [reflexivity|left; reflexivity].
Qed.

(** X6. For a call of ["get_weather"] with a truthy [city], the stdio
    path and the HTTP path hand out the same document: the result of
    [execute] on that city and on the [unit] argument, ["celsius"] when
    it is missing; its [data.city] is the city, the HTTP envelope echoes
    the request id, and thirteen draws are read. *)
Theorem both_paths_return_execute_result
  `{Runtime} (tape : nat -> nat) (timestamp : string) (arguments : dict)
  (request : Http.MCPRequest) (i : nat) :
  truthy (dict_get arguments "city") = true ->
  dict_get (Http.params request) "name" = JStr "get_weather" ->
  dict_get_default (Http.params request) "arguments" (JObj []) = JObj arguments ->
  let r := fst (Weather.execute tape timestamp (dict_get arguments "city")
                  (dict_get_default arguments "unit" (JStr "celsius")) i) in
  Stdio.handle_call_tool tape timestamp "get_weather" arguments i
  = ([ {| type_ := "text"; text := JObj r |} ], (i + 13)%nat)
  /\ Http.handle_tool_call tape (inl tt) timestamp request i
     = ([ ("jsonrpc", Http.VJson (JStr "2.0"));
          ("id", Http.VJson (JNum (Http.id request)));
          ("result", Http.VContent [ {| type_ := "text"; text := JObj r |} ]) ],
        (i + 13)%nat)
  /\ data_field "city" r = Some (dict_get arguments "city")
  /\ lookup_key "success" r = Some (JBool true).
Proof.
  intros Hcity Hname Hargs r.
  assert (Hs : dict_get_default arguments "city" (JStr "")
               = dict_get arguments "city").
  { unfold dict_get_default, dict_get in *.
    destruct (lookup_key "city" arguments); [reflexivity|discriminate]. }
  assert (Hn : dict_get_default arguments "city" JNull
               = dict_get arguments "city") by reflexivity.
  pose proof (execute_cursor tape timestamp (dict_get arguments "city")
                (dict_get_default arguments "unit" (JStr "celsius")) i) as Hc.
  split; [|split; [|split]].
  - unfold Stdio.handle_call_tool, Stdio.try_except.
    change ("get_weather" =? "get_weather")%string with true. cbn iota.
    rewrite Hs, Hcity. cbn [negb]. unfold Weather.rbind, Weather.rret.
    subst r. destruct (Weather.execute tape timestamp _ _ i) as [r j].
    cbn in *. subst j. reflexivity.
  - unfold Http.handle_tool_call, Http.tool_call_body.
    rewrite Hname, Hargs. cbn [truthy eq_str Http.arguments_get ret negb].
    change ("get_weather" =? "")%string with false.
    change ("get_weather" =? "get_weather")%string with true. cbn [negb].
    rewrite Hn, Hcity. cbn [negb]. unfold Weather.rbind, Weather.rret.
    subst r. destruct (Weather.execute tape timestamp _ _ i) as [r j].
    cbn in *. subst j. reflexivity.
  - subst r. unfold Weather.execute, Weather.rbind, Weather.rret,
      Weather.randint, Weather.choice.
    destruct (eq_str _ "fahrenheit"); reflexivity.
  - apply execute_success.
Qed.

Lemma both_paths_return_execute_result_witness :
  Stdio.handle_call_tool (H := Sample.runtime) Sample.tape Sample.timestamp
    "get_weather" [("city", JStr "Paris")] 0%nat
  = ([ {| type_ := "text";
          text := JObj (fst (Weather.execute (H := Sample.runtime) Sample.tape
                               Sample.timestamp (JStr "Paris")
                               (JStr "celsius") 0%nat)) |} ], 13%nat).
Proof.
  apply (both_paths_return_execute_result (H := Sample.runtime) Sample.tape
           Sample.timestamp [("city", JStr "Paris")]
           (Sample.call_request "get_weather" [("city", JStr "Paris")]) 0%nat);
    reflexivity.
Defined.

(** X7. On the HTTP path a call of ["get_weather"] whose [arguments]
    member is present but is not an object ([null], a list, a string, a
    number) is answered by the error envelope of the request, with the
    [AttributeError] of [arguments.get], before any draw. *)
Theorem arguments_not_object_is_error
  `{Runtime} (tape : nat -> nat) (timestamp : string)
  (request : Http.MCPRequest) (arguments : json) (i : nat) :
  dict_get (Http.params request) "name" = JStr "get_weather" ->
  dict_get_default (Http.params request) "arguments" (JObj []) = arguments ->
  (forall d, arguments <> JObj d) ->
  Http.handle_tool_call tape (inl tt) timestamp request i
  = (tool_error (Http.id request) (AttributeError "get"), i).
Proof.
  intros Hname Hargs Hno.
  unfold Http.handle_tool_call, Http.tool_call_body.
  rewrite Hname, Hargs. cbn [truthy eq_str negb].
  change ("get_weather" =? "")%string with false.
  change ("get_weather" =? "get_weather")%string with true. cbn [negb].
  destruct arguments; try reflexivity.
  exfalso. eapply Hno. reflexivity.
Qed.

Lemma arguments_not_object_is_error_witness :
  Http.handle_tool_call (H := Sample.runtime) Sample.tape (inl tt)
    Sample.timestamp
    {| Http.jsonrpc := "2.0"; Http.id := 4; Http.method := "tools/call";
       Http.params := [("name", JStr "get_weather"); ("arguments", JNull)] |}
    0%nat
  = (tool_error (H := Sample.runtime) 4 (AttributeError "get"), 0%nat).
Proof.
  apply (arguments_not_object_is_error (H := Sample.runtime) Sample.tape
           Sample.timestamp
           {| Http.jsonrpc := "2.0"; Http.id := 4; Http.method := "tools/call";
              Http.params := [("name", JStr "get_weather"); ("arguments", JNull)] |}
           JNull 0%nat).
  - reflexivity.
  - reflexivity.
  - discriminate.
Defined.

(** X8. [handle_mcp_request] answers with status 200 exactly when the
    method is one of the three supported ones, so that a failed tool
    call is sent with status 200 as well; every other method gets
    status 500. *)
Theorem status_200_iff_supported_method
  `{Runtime} (tape : nat -> nat) (server : result unit) (timestamp : string)
  (request : Http.MCPRequest) (i : nat) :
  let r := fst (Http.handle_mcp_request tape server timestamp request i) in
  (Http.status r = 200 <->
   Http.method request = "tools/call"
   \/ Http.method request = "tools/list"
   \/ Http.method request = "initialize")
  /\ (Http.status r = 200 \/ Http.status r = 500).
Proof.
  unfold Http.handle_mcp_request, Http.mcp_request_body.
  destruct (String.eqb_spec (Http.method request) "tools/call") as [E1|N1].
  - unfold Weather.rbind, Weather.rret.
    destruct (Http.handle_tool_call tape server timestamp request i).
    cbn. split; [split; [intros _; left; exact E1|reflexivity]|left; reflexivity].
  - destruct (String.eqb_spec (Http.method request) "tools/list") as [E2|N2];
      [|destruct (String.eqb_spec (Http.method request) "initialize")
          as [E3|N3]]; cbn.
    + split; [split; [intros _; right; left; exact E2|reflexivity]
             |left; reflexivity].
    + split; [split; [intros _; right; right; exact E3|reflexivity]
             |left; reflexivity].
    + split; [split; [discriminate|intros [E|[E|E]]; contradiction]
             |right; reflexivity].
Qed.

(** X9. The answers to ["initialize"] and ["tools/list"] depend on the
    request id alone: whatever the params, the outcome of the creation
    of the server, the clock and the tape, the response is the same and
    no draw is read. *)
Theorem initialize_and_list_depend_on_id_only
  `{Runtime} (tape tape' : nat -> nat) (server server' : result unit)
  (timestamp timestamp' : string) (request : Http.MCPRequest)
  (params' : dict) (i : nat) :
  Http.method request = "initialize" \/ Http.method request = "tools/list" ->
  Http.handle_mcp_request tape server timestamp request i
  = Http.handle_mcp_request tape' server' timestamp'
      {| Http.jsonrpc := Http.jsonrpc request; Http.id := Http.id request;
         Http.method := Http.method request; Http.params := params' |} i
  /\ snd (Http.handle_mcp_request tape server timestamp request i) = i
  /\ Http.status (fst (Http.handle_mcp_request tape server timestamp request i))
     = 200.
Proof.
  intros Hm. unfold Http.handle_mcp_request, Http.mcp_request_body.
  cbn [Http.method].
  destruct Hm as [-> | ->]; cbn; repeat split; reflexivity.
Qed.

Lemma initialize_and_list_depend_on_id_only_witness :
  Http.handle_mcp_request (H := Sample.runtime) Sample.tape (inl tt)
    Sample.timestamp Sample.initialize_request 0%nat
  = Http.handle_mcp_request (H := Sample.runtime) (fun _ => 0%nat)
      (inr (OtherError "no server")) ""
      {| Http.jsonrpc := "2.0"; Http.id := 1; Http.method := "initialize";
         Http.params := [("clientInfo", JStr "x")] |} 0%nat.
Proof.
  apply (initialize_and_list_depend_on_id_only (H := Sample.runtime)
           Sample.tape (fun _ => 0%nat) (inl tt)
           (inr (OtherError "no server")) Sample.timestamp ""
           Sample.initialize_request [("clientInfo", JStr "x")] 0%nat).
  left. reflexivity.
Defined.

(* ===================================================================== *)
(** ** Tool discovery and the server singleton *)
(* ===================================================================== *)

(** X10. Every tool listed on the stdio path, and every tool listed by
    ["tools/list"] on the HTTP path, is dispatched when it is called by
    its listed name with a truthy [city]: the answer carries
    [success: true] and is not the unknown-tool error. *)
Theorem listed_tools_are_dispatched
  `{Runtime} (tape : nat -> nat) (timestamp : string) (arguments : dict)
  (rid : Z) (i : nat) :
  truthy (dict_get arguments "city") = true ->
  (forall t, List.In t Registry.handle_list_tools ->
     exists item,
       fst (Stdio.handle_call_tool tape timestamp (Registry.tool_name t)
              arguments i) = [item]
       /\ carries "success" (JBool true) item)
  /\ (forall t, List.In t Http.tools ->
      exists d item,
        t = JObj d
        /\ Http.field "result"
             (fst (Http.handle_tool_call tape (inl tt) timestamp
                     {| Http.jsonrpc := "2.0"; Http.id := rid;
                        Http.method := "tools/call";
                        Http.params := [ ("name", dict_get d "name");
                                         ("arguments", JObj arguments) ] |} i))
           = Some (Http.VContent [item])
        /\ carries "success" (JBool true) item).
Proof.
  intros Hcity. split.
  - intros t [<-|[]]. cbn [Registry.tool_name Registry.weather_tool_def].
    destruct (both_paths_return_execute_result tape timestamp arguments
                (Sample.call_request "get_weather" arguments) i Hcity
                eq_refl eq_refl) as (Hs & _ & _ & Hok).
    unfold Weather.name. rewrite Hs. cbn [fst].
    eexists. split; [reflexivity|].
    eexists. split; [reflexivity|exact Hok].
  - intros t [<-|[]]. eexists. eexists. split; [reflexivity|].
    cbn [dict_get lookup_key String.eqb Ascii.eqb Bool.eqb].
    destruct (both_paths_return_execute_result tape timestamp arguments
                {| Http.jsonrpc := "2.0"; Http.id := rid;
                   Http.method := "tools/call";
                   Http.params := [ ("name", JStr "get_weather");
                                    ("arguments", JObj arguments) ] |} i Hcity
                eq_refl eq_refl) as (_ & Hh & _ & Hok).
    change (dict_get _ "name") with (JStr "get_weather").
    rewrite Hh. cbn [fst]. split; [reflexivity|].
    eexists. split; [reflexivity|exact Hok].
Qed.

Lemma listed_tools_are_dispatched_witness :
  exists item,
    fst (Stdio.handle_call_tool (H := Sample.runtime) Sample.tape
           Sample.timestamp "get_weather" [("city", JStr "Lyon")] 0%nat)
    = [item]
    /\ carries "success" (JBool true) item.
Proof.
  destruct (listed_tools_are_dispatched (H := Sample.runtime) Sample.tape
              Sample.timestamp [("city", JStr "Lyon")] 1 0%nat eq_refl)
    as [Hstdio _].
  apply (Hstdio Registry.weather_tool_def). left. reflexivity.
Defined.

(** X11. [GET /tools] lists the same tool names with the same schemas
    as ["tools/list"], under the key [parameters] in place of
    [inputSchema]; unlike ["tools/list"] it first asks for the server,
    and answers 500 with the text of the exception when the creation of
    the server fails. *)
Theorem get_tools_mirrors_tools_list `{Runtime} :
  (exists listed,
      Endpoints.list_tools (inl tt) = inl [("tools", JArr listed)]
      /\ name_and_schema "parameters" listed
         = name_and_schema "inputSchema" Http.tools)
  /\ (forall e, Endpoints.list_tools (inr e)
                = inr (HTTPException 500 (exn_str e))).
Proof.
  split; [eexists; split; reflexivity|reflexivity].
Qed.

Section SingletonFacts.
Variable create_mcp_server : nat -> result unit.

Local Abbreviation get_mcp_server :=
  (Endpoints.get_mcp_server create_mcp_server).
Local Abbreviation get_mcp_server_times :=
  (Endpoints.get_mcp_server_times create_mcp_server).

Lemma get_mcp_server_times_set (k : nat) (st : Endpoints.server_state)
      (server : unit) :
  Endpoints.mcp_server st = Some server ->
  get_mcp_server_times k st = (repeat (inl server) k, st).
Proof.
  intros Hs. induction k as [|k IH]; [reflexivity|].
  cbn [Endpoints.get_mcp_server_times repeat].
  unfold Endpoints.get_mcp_server at 1. rewrite Hs, IH. reflexivity.
Qed.

(** X12. The server is created once: when the global is unset and the
    factory succeeds, any number of calls of [get_mcp_server] return
    that one server and the factory has been called exactly once; and
    when the factory raises, the call raises the same exception and the
    global stays unset, so that the next call tries again. *)
Theorem server_created_once
  (st : Endpoints.server_state) (k : nat) :
  Endpoints.mcp_server st = None ->
  (forall server,
      create_mcp_server (Endpoints.created st) = inl server ->
      get_mcp_server_times (S k) st
      = (repeat (inl server) (S k),
         {| Endpoints.mcp_server := Some server;
            Endpoints.created := S (Endpoints.created st) |}))
  /\ (forall e,
      create_mcp_server (Endpoints.created st) = inr e ->
      get_mcp_server st
      = (inr e, {| Endpoints.mcp_server := None;
                   Endpoints.created := S (Endpoints.created st) |})).
Proof.
  intros Hnone. split.
  - intros server Hc. cbn [Endpoints.get_mcp_server_times].
    unfold Endpoints.get_mcp_server at 1. rewrite Hnone, Hc.
    rewrite (get_mcp_server_times_set k
               {| Endpoints.mcp_server := Some server;
                  Endpoints.created := S (Endpoints.created st) |}
               server eq_refl).
    reflexivity.
  - intros e Hc. unfold Endpoints.get_mcp_server. rewrite Hnone, Hc.
    reflexivity.
Qed.

End SingletonFacts.

Lemma server_created_once_witness :
  Endpoints.get_mcp_server_times (fun _ => inl tt) 3
    {| Endpoints.mcp_server := None; Endpoints.created := 0 |}
  = ([inl tt; inl tt; inl tt],
     {| Endpoints.mcp_server := Some tt; Endpoints.created := 1 |}).
Proof.
  apply (proj1 (server_created_once (fun _ => inl tt)
                  {| Endpoints.mcp_server := None; Endpoints.created := 0 |}
                  2%nat eq_refl) tt eq_refl).
Defined.

(* ===================================================================== *)
(** ** The body of [verify_auth] behind the flag *)
(* ===================================================================== *)

Lemma split_space_cons (c : ascii) (s : string) :
  Ascii.eqb c " "%char = false ->
  exists w ws, Http.split_space s = w :: ws
               /\ Http.split_space (String c s) = String c w :: ws.
Proof.
  intros Hc. cbn [Http.split_space]. rewrite Hc.
  destruct (Http.split_space s) as [|w ws] eqn:Hs.
  - destruct s as [|c' s']; cbn in Hs; [discriminate|].
    destruct (Ascii.eqb c' " "%char); [discriminate|].
    destruct (Http.split_space s'); discriminate.
  - exists w, ws. split; reflexivity.
Qed.

(** The first piece of [split(' ')] is the text before the first
    space. *)
Lemma split_space_first (tok rest : string) :
  has_space tok = false ->
  Http.split_space tok = [tok]
  /\ Http.split_space (tok ++ String " " rest) = tok :: Http.split_space rest.
Proof.
  induction tok as [|c tok IH]; intros Hs.
  - split; reflexivity.
  - cbn [has_space] in Hs. apply orb_false_iff in Hs. destruct Hs as [Hc Hs].
    destruct (IH Hs) as [IH1 IH2]. split.
    + cbn [Http.split_space]. rewrite Hc, IH1. reflexivity.
    + change (String c tok ++ String " " rest)
        with (String c (tok ++ String " " rest)).
      cbn [Http.split_space]. rewrite Hc, IH2. reflexivity.
Qed.

Lemma bearer_header (s : string) :
  String.eqb ("Bearer " ++ s) "" = false
  /\ String.prefix "Bearer " ("Bearer " ++ s) = true
  /\ Http.split_space ("Bearer " ++ s) = "Bearer" :: Http.split_space s.
Proof.
  split; [reflexivity|]. split; [|reflexivity].
  apply String.prefix_correct. destruct s; reflexivity.
Qed.

(** X13. Once the flag is set and the three variables are configured,
    a header ["Bearer <tok>"], or ["Bearer <tok> <anything>"], with no
    space in [tok], hands [tok] (possibly the empty string) to the
    token verifier: its value is returned as the user, and any exception
    it raises is answered by 401 ["Token invalide"]. *)
Theorem bearer_token_is_first_segment
  (verify_token : string -> result json) (env headers : gmap string string)
  (tok rest : string) :
  Http.azure_configured env = true ->
  has_space tok = false ->
  headers !! "Authorization" = Some ("Bearer " ++ tok)
  \/ headers !! "Authorization" = Some ("Bearer " ++ tok ++ String " " rest) ->
  Http.verify_auth_with true verify_token env headers
  = match verify_token tok with
    | inl user_info => inl user_info
    | inr _ => inr (HTTPException 401 "Token invalide")
    end.
Proof.
  intros Hc Hs Hh. unfold Http.verify_auth_with. rewrite Hc. cbn [negb orb].
  destruct (split_space_first tok rest Hs) as [H1 H2].
  destruct Hh as [-> | ->].
  - destruct (bearer_header tok) as (-> & -> & ->).
    rewrite H1. reflexivity.
  - destruct (bearer_header (tok ++ String " " rest)) as (-> & -> & ->).
    rewrite H2. reflexivity.
Qed.

Lemma bearer_token_is_first_segment_witness :
  Http.verify_auth_with true (fun t => inl (JStr t)) Sample.env_configured
    (<["Authorization" := "Bearer abc.def extra"]> ∅)
  = inl (JStr "abc.def").
Proof.
  apply (bearer_token_is_first_segment (fun t => inl (JStr t))
           Sample.env_configured
           (<["Authorization" := "Bearer abc.def extra"]> ∅)
           "abc.def" "extra").
  - vm_compute. reflexivity.
  - reflexivity.
  - right. vm_compute. reflexivity.
Defined.

(* ===================================================================== *)
(** ** More on the key-set cache *)
(* ===================================================================== *)

Section CacheMore.
Variable http_get_jwks : nat -> result json.
Variable jwt_get_unverified_header : string -> result dict.
Variable public_key_pem : dict -> result string.
Variable jwt_decode : string -> string -> result dict.

Local Abbreviation get_jwks := (Auth.get_jwks http_get_jwks).
Local Abbreviation validate_token :=
  (Auth.validate_token http_get_jwks jwt_get_unverified_header
                       public_key_pem jwt_decode).
Local Abbreviation run :=
  (run_validations http_get_jwks jwt_get_unverified_header
                   public_key_pem jwt_decode).

(** X14. A key set that [get_jwks] returns without sending a request
    is the cached one, is non-empty, and was stored less than one hour
    before the call; the object is left as it was. *)
Theorem cache_served_only_when_fresh
  (now : Z) (st st' : Auth.state) (keys : json) :
  get_jwks now st = (inl keys, st') ->
  Auth.fetches st' = Auth.fetches st ->
  exists t,
    Auth.jwks_cache_time (Auth.self st) = Some t
    /\ now - t < Auth.window
    /\ keys = Auth.jwks_cache (Auth.self st)
    /\ truthy keys = true
    /\ st' = st.
Proof.
  unfold Auth.get_jwks, Auth.get_jwks_send, Auth.get_jwks_receive. intros Hg Hf.
  destruct (Auth.cache_fresh (Auth.self st) now) eqn:Hfresh.
  - injection Hg as <- <-. unfold Auth.cache_fresh in Hfresh.
    destruct (Auth.jwks_cache_time (Auth.self st)) as [t|]; [|discriminate].
    apply andb_true_iff in Hfresh. destruct Hfresh as [Hlt Htr].
    exists t. apply Z.ltb_lt in Hlt. repeat split; assumption.
  - destruct (http_get_jwks (Auth.fetches st)); [|discriminate Hg].
    injection Hg as <- <-. cbn in Hf. lia.
Qed.

(** X15. What [get_jwks] returns is what the cache holds afterwards;
    when it raises, the exception is the 503 of the [except] clause, one
    request has been sent and the cache is as it was. *)
Theorem get_jwks_returns_the_cache (now : Z) (st : Auth.state) :
  match get_jwks now st with
  | (inl keys, st') => Auth.jwks_cache (Auth.self st') = keys
  | (inr e, st') =>
      e = HTTPException 503 "Service d'authentification indisponible"
      /\ Auth.self st' = Auth.self st
      /\ Auth.fetches st' = S (Auth.fetches st)
  end.
Proof.
  unfold Auth.get_jwks, Auth.get_jwks_send, Auth.get_jwks_receive.
  destruct (Auth.cache_fresh (Auth.self st) now); [reflexivity|].
  destruct (http_get_jwks (Auth.fetches st)); cbn; repeat split; reflexivity.
Qed.

(** X16. While the cache is non-empty and less than one hour old at
    each of their clocks, any run of validations, whatever the tokens,
    sends no request and leaves the object untouched. *)
Theorem validations_within_window_send_nothing
  (vs : list validation) (st : Auth.state) (t : Z) :
  Auth.jwks_cache_time (Auth.self st) = Some t ->
  truthy (Auth.jwks_cache (Auth.self st)) = true ->
  (forall v, List.In v vs -> v_now v - t < Auth.window) ->
  run vs st = st.
Proof.
  intros Ht Htr. induction vs as [|v vs IH]; intros Hw; [reflexivity|].
  cbn [run_validations]. rewrite validate_token_state.
  assert (Hfresh : Auth.cache_fresh (Auth.self st) (v_now v) = true).
  { unfold Auth.cache_fresh. rewrite Ht, Htr, andb_true_r.
    apply Z.ltb_lt. apply Hw. left. reflexivity. }
  rewrite (get_jwks_hit _ _ _ Hfresh). cbn [snd].
  assert (Hst : match jwt_get_unverified_header (v_token v) with
                | inl _ => st | inr _ => st end = st)
    by (destruct (jwt_get_unverified_header (v_token v)); reflexivity).
  rewrite Hst. apply IH. intros v' Hin. apply Hw. right. exact Hin.
Qed.

(** X17. The count of requests never decreases, and a run of [n]
    validations sends at most [n] requests. *)
Theorem fetches_bounded_by_validations
  (vs : list validation) (st : Auth.state) :
  (Auth.fetches st <= Auth.fetches (run vs st)
   <= Auth.fetches st + length vs)%nat.
Proof.
  revert st. induction vs as [|v vs IH]; intros st; [cbn; lia|].
  cbn [run_validations length]. rewrite validate_token_state.
  set (st1 := match jwt_get_unverified_header (v_token v) with
              | inl _ => snd (get_jwks (v_now v) st)
              | inr _ => st
              end).
  assert (H1 : (Auth.fetches st <= Auth.fetches st1 <= S (Auth.fetches st))%nat).
  { subst st1. destruct (jwt_get_unverified_header (v_token v)); [|lia].
    unfold Auth.get_jwks, Auth.get_jwks_send, Auth.get_jwks_receive.
    destruct (Auth.cache_fresh (Auth.self st) (v_now v)); [cbn; lia|].
    destruct (http_get_jwks (Auth.fetches st)); cbn; lia. }
  specialize (IH st1). lia.
Qed.

(** X18. When the cache is empty or stale and the request to the
    discovery endpoint fails, the 503 raised by [get_jwks] does not
    leave [validate_token]: the caller gets 401
    ["Erreur d'authentification"], one request has been sent and the
    cache is unchanged. *)
Theorem discovery_failure_is_reported_as_401
  (token : string) (request : Auth.Request) (now now_ts : Z)
  (st : Auth.state) (header : dict) (e : exn) :
  jwt_get_unverified_header token = inl header ->
  Auth.cache_fresh (Auth.self st) now = false ->
  http_get_jwks (Auth.fetches st) = inr e ->
  validate_token token request now now_ts st
  = (inr (HTTPException 401 "Erreur d'authentification"),
     {| Auth.self := Auth.self st; Auth.fetches := S (Auth.fetches st) |}).
Proof.
  intros Hh Hf He.
  unfold Auth.validate_token, Auth.validate_token_body, Auth.mbind, Auth.lift.
  rewrite Hh, (get_jwks_miss _ _ _ Hf), He. reflexivity.
Qed.

(** X19. Every failure of [validate_token] is an [HTTPException] of
    status 401 whose detail is one of ["Token expiré"],
    ["Token invalide"] and ["Erreur d'authentification"]. *)
Theorem validate_token_failure_details
  (token : string) (request : Auth.Request) (now now_ts : Z)
  (st : Auth.state) (e : exn) :
  fst (validate_token token request now now_ts st) = inr e ->
  e = HTTPException 401 "Token expiré"
  \/ e = HTTPException 401 "Token invalide"
  \/ e = HTTPException 401 "Erreur d'authentification".
Proof.
  unfold Auth.validate_token.
  destruct (Auth.validate_token_body _ _ _ _ _ _ _ _ _) as [[p|e'] st'];
    cbn [fst]; [discriminate|].
  intros [= <-]. destruct e'; cbn; auto.
Qed.

End CacheMore.

Lemma cache_served_only_when_fresh_witness :
  exists t,
    Auth.jwks_cache_time (Auth.self Sample.cached_old) = Some t
    /\ Auth.second - t < Auth.window
    /\ Sample.keyset "old" = Auth.jwks_cache (Auth.self Sample.cached_old)
    /\ truthy (Sample.keyset "old") = true
    /\ Sample.cached_old = Sample.cached_old.
Proof.
  apply (cache_served_only_when_fresh Sample.fetch_new Auth.second
           Sample.cached_old Sample.cached_old (Sample.keyset "old"));
    reflexivity.
Defined.

Lemma validations_within_window_send_nothing_witness :
  run_validations Sample.fetch_new Sample.header_of Sample.pem_of
    (Sample.decode_exp 4102444800)
    [ {| v_token := "token-a"; v_request := Sample.request;
         v_now := 1 * Auth.second; v_now_ts := 1 * Auth.second |};
      {| v_token := "token-b"; v_request := Sample.request;
         v_now := 2 * Auth.second; v_now_ts := 2 * Auth.second |} ]
    Sample.cached_old
  = Sample.cached_old.
Proof.
  apply (validations_within_window_send_nothing Sample.fetch_new
           Sample.header_of Sample.pem_of (Sample.decode_exp 4102444800)
           _ Sample.cached_old 0).
  - reflexivity.
  - reflexivity.
  - intros v [<-|[<-|[]]]; reflexivity.
Defined.

Lemma discovery_failure_is_reported_as_401_witness :
  Auth.validate_token Sample.fetch_down Sample.header_of Sample.pem_of
    (Sample.decode_exp 4102444800) "token" Sample.request 0 0
    Sample.empty_state
  = (inr (HTTPException 401 "Erreur d'authentification"),
     {| Auth.self := Auth.new_AzureADAuth; Auth.fetches := 1 |}).
Proof.
  apply (discovery_failure_is_reported_as_401 Sample.fetch_down
           Sample.header_of Sample.pem_of (Sample.decode_exp 4102444800)
           "token" Sample.request 0 0 Sample.empty_state
           [("alg", JStr "RS256"); ("kid", JStr "new")]
           (OtherError "ConnectError"));
    reflexivity.
Defined.

Lemma validate_token_failure_details_witness :
  HTTPException 401 "Erreur d'authentification"
  = HTTPException 401 "Token expiré"
  \/ HTTPException 401 "Erreur d'authentification"
     = HTTPException 401 "Token invalide"
  \/ HTTPException 401 "Erreur d'authentification"
     = HTTPException 401 "Erreur d'authentification".
Proof.
  apply (validate_token_failure_details Sample.fetch_down Sample.header_of
           Sample.pem_of (Sample.decode_exp 4102444800) "token"
           Sample.request 0 0 Sample.empty_state).
  reflexivity.
Defined.

(* ===================================================================== *)
(** ** More on key lookup and on the acceptance of a token *)
(* ===================================================================== *)

(** X20. The key [get_public_key] builds from is the first record of
    the key set whose [kid] equals that of the token: every entry before
    it is a record with another [kid], and the entries after it are not
    looked at. *)
Theorem find_key_returns_first_match
  (kid : json) (keys : list json) (key : dict) :
  Auth.find_key kid keys = inl (Some key) ->
  exists (before : list dict) (after : list json),
    keys = (map JObj before ++ JObj key :: after)%list
    /\ py_eq (dict_get key "kid") kid = true
    /\ forall k, List.In k before -> py_eq (dict_get k "kid") kid = false.
Proof.
  induction keys as [|entry keys IH]; cbn [Auth.find_key]; [discriminate|].
  destruct entry as [| | | | |d]; try discriminate.
  destruct (py_eq (dict_get d "kid") kid) eqn:Heq.
  - intros [= <-]. exists [], keys. repeat split; [exact Heq|].
    intros k [].
  - intros Hf. destruct (IH Hf) as (before & after & -> & Hk & Hb).
    exists (d :: before), after. repeat split; [exact Hk|].
    intros k [<-|Hin]; [exact Heq|apply Hb; exact Hin].
Qed.

Lemma find_key_returns_first_match_witness :
  exists (before : list dict) (after : list json),
    [ JObj [("kid", JStr "old")]; JObj [("kid", JStr "new")]; JNum 5 ]
    = (map JObj before ++ JObj [("kid", JStr "new")] :: after)%list
    /\ py_eq (dict_get [("kid", JStr "new")] "kid") (JStr "new") = true
    /\ forall k, List.In k before -> py_eq (dict_get k "kid") (JStr "new") = false.
Proof.
  apply (find_key_returns_first_match (JStr "new")
           [ JObj [("kid", JStr "old")]; JObj [("kid", JStr "new")]; JNum 5 ]
           [("kid", JStr "new")]).
  reflexivity.
Defined.

(** [log_access] returns exactly when the identifier is a string that
    UTF-8 can encode and the address can be encoded too. *)
Lemma log_access_succeeds_iff (user_id : json) (endpoint : string)
      (success : bool) (ip_address : string) :
  Auth.log_access user_id endpoint success ip_address = inl tt
  <-> (exists s, user_id = JStr s /\ has_surrogate s = false)
      /\ has_surrogate ip_address = false.
Proof.
  unfold Auth.log_access, encode.
  destruct user_id as [| | |s| |];
    try (split; [discriminate|intros [(s' & [=] & _) _]]).
  destruct (has_surrogate s) eqn:Hs; cbn [bind raise ret].
  - split; [discriminate|].
    intros [(s' & [= <-] & Hs') _]. congruence.
  - destruct (String.eqb_spec ip_address "") as [->|Hne].
    + split; [intros _|reflexivity].
      split; [exists s; split; [reflexivity|exact Hs]|reflexivity].
    + destruct (has_surrogate ip_address) eqn:Hip; cbn [bind raise ret].
      * split; [discriminate|intros [_ [=]]].
      * split; [intros _|reflexivity].
        split; [exists s; split; [reflexivity|exact Hs]|reflexivity].
Qed.

Section AcceptanceMore.
Variable http_get_jwks : nat -> result json.
Variable jwt_get_unverified_header : string -> result dict.
Variable public_key_pem : dict -> result string.
Variable jwt_decode : string -> string -> result dict.

Local Abbreviation get_jwks := (Auth.get_jwks http_get_jwks).
Local Abbreviation get_public_key := (Auth.get_public_key public_key_pem).
Local Abbreviation validate_token :=
  (Auth.validate_token http_get_jwks jwt_get_unverified_header
                       public_key_pem jwt_decode).

(** X21. Once [jwt.decode] has returned a payload, the payload is
    handed to the caller exactly when its [exp] is a number that is not
    before the clock of the expiry test, its [sub], when present, is a
    string that UTF-8 can encode (no lone surrogate), and so is the
    address of the client; in every other case the answer is a 401. *)
Theorem accepted_iff_unexpired_with_encodable_subject
  (token : string) (request : Auth.Request) (now now_ts : Z)
  (st st1 : Auth.state) (header : dict) (jwks : json) (key : string)
  (payload : dict) :
  jwt_get_unverified_header token = inl header ->
  get_jwks now st = (inl jwks, st1) ->
  get_public_key header jwks = inl key ->
  jwt_decode token key = inl payload ->
  (validate_token token request now now_ts st = (inl payload, st1)
   <-> Auth.exp_before payload now_ts = inl false
       /\ (exists s, dict_get_default payload "sub" (JStr "unknown") = JStr s
                     /\ has_surrogate s = false)
       /\ has_surrogate (match Auth.client_host request with
                         | Some h => h
                         | None => "unknown"
                         end) = false)
  /\ (rejected 401 (fst (validate_token token request now now_ts st))
      \/ fst (validate_token token request now now_ts st) = inl payload).
Proof.
  intros Hh Hj Hk Hd.
  rewrite (validate_token_decode _ _ _ _ token request now now_ts st st1
             header jwks key Hh Hj Hk), Hd.
  set (ip := match Auth.client_host request with
             | Some h => h
             | None => "unknown"
             end).
  pose proof (log_access_succeeds_iff
                (dict_get_default payload "sub" (JStr "unknown"))
                (Auth.url_path request) true ip) as Hlog.
  destruct (Auth.exp_before payload now_ts) as [[]|e'].
  - split; [split; [discriminate|intros [[=] _]]|left; eexists; reflexivity].
  - destruct (Auth.log_access _ _ _ _) as [[]|e'] eqn:Hl; cbn [fst].
    + split; [|right; reflexivity].
      split; [intros _|reflexivity].
      destruct (proj1 Hlog eq_refl) as [Hs Hip]. repeat split; assumption.
    + split.
      * split; [discriminate|].
        intros (_ & Hs & Hip).
        assert (Hok : @inr unit exn e' = inl tt)
          by (apply Hlog; split; assumption).
        discriminate Hok.
      * left. destruct e'; eexists; reflexivity.
  - split; [split; [discriminate|intros [[=] _]]|].
    left. cbn [fst]. destruct e'; eexists; reflexivity.
Qed.

(** X22. A payload without an [exp] member is treated as expired at
    time 0: at any positive time the token is rejected with a 401 even
    though [jwt.decode] accepted it. *)
Theorem token_without_exp_is_rejected
  (token : string) (request : Auth.Request) (now now_ts : Z)
  (st st1 : Auth.state) (header : dict) (jwks : json) (key : string)
  (payload : dict) :
  jwt_get_unverified_header token = inl header ->
  get_jwks now st = (inl jwks, st1) ->
  get_public_key header jwks = inl key ->
  jwt_decode token key = inl payload ->
  lookup_key "exp" payload = None ->
  0 < now_ts ->
  validate_token token request now now_ts st
  = (inr (HTTPException 401 "Erreur d'authentification"), st1).
Proof.
  intros Hh Hj Hk Hd He Hpos.
  rewrite (validate_token_decode _ _ _ _ token request now now_ts st st1
             header jwks key Hh Hj Hk), Hd.
  unfold Auth.exp_before, dict_get_default. rewrite He. cbn [ret].
  assert (Hlt : (0 * Auth.second <? now_ts) = true) by (apply Z.ltb_lt; lia).
  rewrite Hlt. reflexivity.
Qed.

End AcceptanceMore.

Lemma accepted_iff_unexpired_with_encodable_subject_witness :
  Auth.validate_token Sample.fetch_new Sample.header_of Sample.pem_of
    (Sample.pyjwt_decode (99 * Auth.second) Sample.signed Sample.claims_of)
    "token" Sample.request Auth.second (99 * Auth.second) Sample.cached_new
  = (inl (Sample.payload_exp 100), Sample.cached_new).
Proof.
  apply (accepted_iff_unexpired_with_encodable_subject
           Sample.fetch_new Sample.header_of Sample.pem_of
           (Sample.pyjwt_decode (99 * Auth.second) Sample.signed
              Sample.claims_of)
           "token" Sample.request
           Auth.second (99 * Auth.second) Sample.cached_new Sample.cached_new
           [("alg", JStr "RS256"); ("kid", JStr "new")] (Sample.keyset "new")
           "PEM" (Sample.payload_exp 100) eq_refl eq_refl eq_refl eq_refl).
  split; [reflexivity|]. split; [|reflexivity].
  exists "user-1". split; reflexivity.
Defined.

Lemma token_without_exp_is_rejected_witness :
  Auth.validate_token Sample.fetch_new Sample.header_of Sample.pem_of
    (fun _ _ => inl [("sub", JStr "user-1")]) "token" Sample.request
    Auth.second Auth.second Sample.cached_new
  = (inr (HTTPException 401 "Erreur d'authentification"), Sample.cached_new).
Proof.
  apply (token_without_exp_is_rejected
           Sample.fetch_new Sample.header_of Sample.pem_of
           (fun _ _ => inl [("sub", JStr "user-1")]) "token" Sample.request
           Auth.second Auth.second Sample.cached_new Sample.cached_new
           [("alg", JStr "RS256"); ("kid", JStr "new")] (Sample.keyset "new")
           "PEM" [("sub", JStr "user-1")] eq_refl eq_refl eq_refl eq_refl
           eq_refl).
  reflexivity.
Defined.

(* ===================================================================== *)
(** ** More on the role guard *)
(* ===================================================================== *)

Lemma require_role_list (required_role : string) (user : dict)
      (roles : list json) :
  dict_get_default user "roles" (JArr []) = JArr roles ->
  Auth.require_role required_role user
  = if existsb (fun y => eq_str y required_role) roles
       || existsb (fun y => eq_str y "admin") roles
    then inl user
    else inr (HTTPException 403 ("Rôle requis: " ++ required_role)).
Proof.
  intros Hr. unfold Auth.require_role. rewrite Hr. cbn [Auth.str_in bind ret].
  destruct (existsb (fun y => eq_str y required_role) roles);
    [reflexivity|].
  destruct (existsb (fun y => eq_str y "admin") roles); reflexivity.
Qed.

(** X23. Granting more roles never revokes an access: a guard passed
    with a list of roles is passed with every list that contains it. *)
Theorem require_role_monotone
  (required_role : string) (user user' : dict) (roles roles' : list json) :
  dict_get_default user "roles" (JArr []) = JArr roles ->
  dict_get_default user' "roles" (JArr []) = JArr roles' ->
  incl roles roles' ->
  Auth.require_role required_role user = inl user ->
  Auth.require_role required_role user' = inl user'.
Proof.
  intros Hr Hr' Hincl.
  rewrite (require_role_list _ _ _ Hr), (require_role_list _ _ _ Hr').
  destruct (existsb (fun y => eq_str y required_role) roles
            || existsb (fun y => eq_str y "admin") roles) eqn:Hp;
    [|discriminate].
  intros _. apply orb_true_iff in Hp.
  assert (Hp' : existsb (fun y => eq_str y required_role) roles'
                || existsb (fun y => eq_str y "admin") roles' = true).
  { apply orb_true_iff.
    destruct Hp as [Hp|Hp]; [left|right];
      apply existsb_eq_str_In; apply Hincl; apply existsb_eq_str_In; exact Hp. }
  rewrite Hp'. reflexivity.
Qed.

Lemma require_role_monotone_witness :
  Auth.require_role "reader"
    [("sub", JStr "user-2"); ("roles", JArr [JStr "writer"; JStr "reader"])]
  = inl [("sub", JStr "user-2"); ("roles", JArr [JStr "writer"; JStr "reader"])].
Proof.
  apply (require_role_monotone "reader" (Sample.payload_exp 10)
           [("sub", JStr "user-2"); ("roles", JArr [JStr "writer"; JStr "reader"])]
           [JStr "reader"] [JStr "writer"; JStr "reader"]).
  - reflexivity.
  - reflexivity.
  - intros x [<-|[]]. right. left. reflexivity.
  - reflexivity.
Defined.

(** X24. When [roles] is a string and not a list, [in] is a substring
    test: the guard passes exactly when the required role or ["admin"]
    occurs somewhere inside that string. *)
Theorem require_role_on_string_is_substring_test
  (required_role : string) (user : dict) (s : string) :
  dict_get_default user "roles" (JArr []) = JStr s ->
  (Auth.require_role required_role user = inl user
   <-> String.index 0 required_role s <> None
       \/ String.index 0 "admin" s <> None)
  /\ (Auth.require_role required_role user = inl user
      \/ Auth.require_role required_role user
         = inr (HTTPException 403 ("Rôle requis: " ++ required_role))).
Proof.
  intros Hr. unfold Auth.require_role. rewrite Hr.
  cbn [Auth.str_in bind ret].
  destruct (String.index 0 required_role s) as [n|];
    [|destruct (String.index 0 "admin" s) as [m|]]; cbn.
  - split; [split; [intros _; left; discriminate|reflexivity]|left; reflexivity].
  - split; [split; [intros _; right; discriminate|reflexivity]|left; reflexivity].
  - split; [split; [discriminate|intros [Hn|Hn]; contradiction]|right; reflexivity].
Qed.

Lemma require_role_on_string_is_substring_test_witness :
  Auth.require_role "writer" [("roles", JStr "administrator")]
  = inl [("roles", JStr "administrator")].
Proof.
  apply (require_role_on_string_is_substring_test "writer"
           [("roles", JStr "administrator")] "administrator" eq_refl).
  right. discriminate.
Defined.

(** X25. When [roles] is [null], a boolean or a number, the membership
    test itself raises: the guard fails with a [TypeError], and not with
    the 403 of a missing role. *)
Theorem require_role_on_non_iterable_raises
  (required_role : string) (user : dict) (v : json) :
  dict_get_default user "roles" (JArr []) = v ->
  (v = JNull \/ (exists b, v = JBool b) \/ (exists n, v = JNum n)) ->
  Auth.require_role required_role user
  = inr (TypeError "argument is not iterable")
  /\ ~ rejected 403 (Auth.require_role required_role user).
Proof.
  intros Hr Hv. unfold Auth.require_role. rewrite Hr.
  assert (E : Auth.str_in required_role v
              = inr (TypeError "argument is not iterable")).
  { destruct Hv as [->|[[b ->]|[n ->]]]; reflexivity. }
  rewrite E. cbn. split; [reflexivity|].
  intros [detail Hd]. discriminate Hd.
Qed.

Lemma require_role_on_non_iterable_raises_witness :
  Auth.require_role "reader" [("sub", JStr "user-3"); ("roles", JNull)]
  = inr (TypeError "argument is not iterable").
Proof.
  apply (require_role_on_non_iterable_raises "reader"
           [("sub", JStr "user-3"); ("roles", JNull)] JNull eq_refl).
  left. reflexivity.
Defined.

(* ===================================================================== *)
(** ** The anonymising logger *)
(* ===================================================================== *)

Lemma substring_prefix_length (n : nat) (s : string) :
  String.length (String.substring 0 n s) = Nat.min n (String.length s)
  /\ String.prefix (String.substring 0 n s) s = true.
Proof.
  revert s. induction n as [|n IH]; intros s.
  - split; destruct s; reflexivity.
  - destruct s as [|c s]; [split; reflexivity|].
    destruct (IH s) as [Hl Hp]. cbn [String.substring String.length Nat.min].
    split; [rewrite Hl; reflexivity|].
    cbn [String.prefix]. destruct (Ascii.ascii_dec c c); [exact Hp|contradiction].
Qed.

Section LoggerFacts.
Variable sha256_hexdigest : string -> string.

Local Abbreviation anonymize_user_id := (Gdpr.anonymize_user_id sha256_hexdigest).
Local Abbreviation log_access := (Gdpr.log_access sha256_hexdigest).
Local Abbreviation delete_user_data := (Gdpr.delete_user_data sha256_hexdigest).

(** X26. The anonymised form of a string identifier that UTF-8 can
    encode is the beginning of the digest of its bytes, cut to eight
    characters (exactly eight for a digest of eight characters or
    more); a string with a lone surrogate raises the [ValueError] of
    [encode], and anything but a string raises [AttributeError]. *)
Theorem anonymized_id_is_digest_prefix (user_id : json) :
  match user_id with
  | JStr s =>
      if has_surrogate s
      then exists msg, anonymize_user_id user_id = inr (ValueError msg)
      else
        exists a,
          anonymize_user_id user_id = inl a
          /\ String.prefix a (sha256_hexdigest s) = true
          /\ String.length a = Nat.min 8 (String.length (sha256_hexdigest s))
  | _ => anonymize_user_id user_id = inr (AttributeError "encode")
  end.
Proof.
  destruct user_id as [| | |s| |]; try reflexivity.
  unfold Gdpr.anonymize_user_id, encode.
  destruct (has_surrogate s); cbn [bind raise ret].
  - eexists. reflexivity.
  - destruct (substring_prefix_length 8 (sha256_hexdigest s)) as [Hl Hp].
    eexists. split; [reflexivity|]. split; [exact Hp|exact Hl].
Qed.

(** X27. For identifiers that UTF-8 can encode, the access line is
    determined by the anonymised forms: two identifiers whose digests
    begin with the same eight characters give the same line for the
    same endpoint, outcome and address, and a missing or empty address
    is logged as ["unknown"]. *)
Theorem access_line_depends_on_digest_prefix
  (u1 u2 endpoint : string) (success : bool) (ip : option string) :
  has_surrogate u1 = false ->
  has_surrogate u2 = false ->
  String.substring 0 8 (sha256_hexdigest u1)
  = String.substring 0 8 (sha256_hexdigest u2) ->
  log_access (JStr u1) endpoint success ip
  = log_access (JStr u2) endpoint success ip
  /\ log_access (JStr u1) endpoint success None
     = log_access (JStr u1) endpoint success (Some "")
  /\ log_access (JStr u1) endpoint success None
     = inl ("ACCESS: user=" ++ String.substring 0 8 (sha256_hexdigest u1)
            ++ ", endpoint=" ++ endpoint ++ ", success="
            ++ Gdpr.bool_str success ++ ", ip_hash=unknown").
Proof.
  intros H1 H2 Hp. unfold Gdpr.log_access, Gdpr.anonymize_user_id, encode.
  rewrite H1, H2. cbn [bind ret]. rewrite Hp. repeat split; reflexivity.
Qed.

(** X28. [delete_user_data] reports success exactly when the identifier
    is a string that UTF-8 can encode, and it then logs two lines at
    level INFO; for a string with a lone surrogate, as for any other
    value, it returns [False]. *)
Theorem delete_user_data_succeeds_iff_encodable (user_id : json) :
  (fst (delete_user_data user_id) = true
   <-> exists s, user_id = JStr s /\ has_surrogate s = false)
  /\ (fst (delete_user_data user_id) = true ->
      length (snd (delete_user_data user_id)) = 2%nat).
Proof.
  unfold Gdpr.delete_user_data, Gdpr.log_data_processing,
    Gdpr.anonymize_user_id, encode.
  destruct user_id as [| | |s| |]; cbn;
    try (split; [split; [discriminate|intros (s' & [=] & _)]|discriminate]).
  destruct (has_surrogate s) eqn:Hs; cbn.
  - split; [split; [discriminate|]|discriminate].
    intros (s' & [= <-] & Hs'). congruence.
  - split; [split; [intros _; exists s; split; [reflexivity|exact Hs]
                   |reflexivity]
           |reflexivity].
Qed.

End LoggerFacts.

Lemma access_line_depends_on_digest_prefix_witness :
  Gdpr.log_access (fun s => "0123456789abcdef") (JStr "alice") "/mcp" true
    (Some "10.0.0.1")
  = Gdpr.log_access (fun s => "0123456789abcdef") (JStr "bob") "/mcp" true
      (Some "10.0.0.1").
Proof.
  apply (access_line_depends_on_digest_prefix (fun s => "0123456789abcdef")
           "alice" "bob" "/mcp" true (Some "10.0.0.1"));
    reflexivity.
Defined.

(** A [sub] with a lone surrogate (U+D800, the bytes [ED A0 80]) is
    refused by [encode]; no line is logged for it. *)
Example lone_surrogate_is_not_encoded :
  has_surrogate (String (ascii_of_nat 237)
                   (String (ascii_of_nat 160)
                      (String (ascii_of_nat 128) ""))) = true
  /\ has_surrogate "Zoé" = false
  /\ fst (Gdpr.delete_user_data (fun s => "0123456789abcdef")
            (JStr (String (ascii_of_nat 237)
                     (String (ascii_of_nat 160)
                        (String (ascii_of_nat 128) ""))))) = false.
Proof. repeat split; reflexivity. Qed.
